(** * crmendpoint: the Zoho token cache and record client of [app.py]

    A shallow embedding of the CRM integration layer of [app.py]:
    the process-wide token cache, [get_zoho_access_token],
    [fetch_from_zoho], the two Zoho endpoints and the helper
    [convert_arrays_to_list].

    Conventions of the embedding.
    - Python values that come out of [response.json()] or out of a
      database row are values of [Json].  A [dict] is an association list
      in insertion order; a well-formed one has pairwise distinct keys
      ([wf]).  JSON numbers are integers; fractional numbers (Python
      floats) are outside the model.
    - A [datetime] is the number of microseconds since
      0001-01-01T00:00:00, a [timedelta] a number of microseconds; both
      constructors raise [OverflowError] outside Python's ranges.
    - The module-level dictionary [zoho_access_token_cache], the wall
      clock and the network are the fields of [World]; code with effects
      lives in the monad [M], which threads the world and keeps it when an
      exception is raised.
    - The start of the module is a function of the environment, and the
      database endpoint a function of what [psycopg2] returns for the
      connection and the two queries ([Database]). *)

From Stdlib Require Import ZArith List String Ascii Bool Lia DecimalString.
Import ListNotations.
Local Open Scope string_scope.
Local Open Scope Z_scope.

(** ** Python values *)

#[warnings="-register-all"]
Inductive Json : Type :=
| JNull
| JBool (b : bool)
| JInt (n : Z)
| JStr (s : string)
| JList (l : list Json)
| JDict (d : list (string * Json)).

Definition Dict := list (string * Json).

(** [bool(v)]: the truth value Python gives to [v]. *)
Definition truthy (v : Json) : bool :=
  match v with
  | JNull => false
  | JBool b => b
  | JInt n => negb (n =? 0)
  | JStr s => negb (s =? "")%string
  | JList l => match l with [] => false | _ => true end
  | JDict d => match d with [] => false | _ => true end
  end.

(** [d.get(k)] on the items of a dict: [None] when the key is absent. *)
Fixpoint lookup (k : string) (d : Dict) : option Json :=
  match d with
  | [] => None
  | (k', v) :: d' => if (k' =? k)%string then Some v else lookup k d'
  end.

(** [d[k] = v]: an existing key keeps its place, a new one goes last. *)
Fixpoint dict_set (d : Dict) (k : string) (v : Json) : Dict :=
  match d with
  | [] => [(k, v)]
  | (k', v') :: d' =>
      if (k' =? k)%string then (k', v) :: d' else (k', v') :: dict_set d' k v
  end.

(** [{k: f(v) for k, v in items if keep(k)}]: one insertion per item
    kept, in iteration order. *)
Definition dict_comp (keep : string -> bool) (f : Json -> Json)
    (items : Dict) : Dict :=
  fold_left
    (fun acc kv => if keep (fst kv) then dict_set acc (fst kv) (f (snd kv))
                   else acc)
    items [].

Definition keys (d : Dict) : list string := map fst d.

(** Well-formed values: the keys of every dict are pairwise distinct. *)
Fixpoint wf (v : Json) : Prop :=
  match v with
  | JList l => (fix all (l : list Json) : Prop :=
                  match l with [] => True | x :: l' => wf x /\ all l' end) l
  | JDict d => NoDup (keys d) /\
               (fix all (d : Dict) : Prop :=
                  match d with [] => True | kv :: d' => wf (snd kv) /\ all d' end) d
  | _ => True
  end.

(** ** Exceptions *)

Inductive exn : Type :=
| Exception (msg : string)
| TypeError
| AttributeError
| KeyError
| IndexError
| OverflowError
| JSONDecodeError.

Inductive result (A : Type) : Type :=
| Ok (a : A)
| Raise (e : exn).
Arguments Ok {A} a.
Arguments Raise {A} e.

Definition rbind {A B} (r : result A) (k : A -> result B) : result B :=
  match r with
  | Ok a => k a
  | Raise e => Raise e
  end.

(** ** Strings *)

(** [s.startswith(p)] *)
Definition startswith (s p : string) : bool := String.prefix p s.

(** [s.split(sep)] for a non-empty [sep]: [skip] characters of a
    separator just found are still to be dropped, [acc] is the piece
    being read. *)
Fixpoint split_go (sep : string) (skip : nat) (acc : string) (s : string)
    : list string :=
  match s with
  | EmptyString => [acc]
  | String c s' =>
      match skip with
      | S k => split_go sep k acc s'
      | O =>
          if String.prefix sep s
          then acc :: split_go sep (String.length sep - 1) "" s'
          else split_go sep 0 (acc ++ String c "") s'
      end
  end.

Definition split (s sep : string) : list string := split_go sep 0 "" s.

(** [str(n)] for an integer. *)
Definition str_int (n : Z) : string := NilZero.string_of_int (Z.to_int n).

(** ** Operations on values that may raise *)

(** [len(v)] *)
Definition py_len (v : Json) : result Z :=
  match v with
  | JStr s => Ok (Z.of_nat (String.length s))
  | JList l => Ok (Z.of_nat (List.length l))
  | JDict d => Ok (Z.of_nat (List.length d))
  | _ => Raise TypeError
  end.

(** [v[k]] for a string key. *)
Definition py_getitem_key (v : Json) (k : string) : result Json :=
  match v with
  | JDict d => match lookup k d with Some x => Ok x | None => Raise KeyError end
  | _ => Raise TypeError
  end.

(** [v[0]] *)
Definition py_getitem_0 (v : Json) : result Json :=
  match v with
  | JList l => match l with x :: _ => Ok x | [] => Raise IndexError end
  | JStr s => match s with
              | String c _ => Ok (JStr (String c ""))
              | EmptyString => Raise IndexError
              end
  | JDict _ => Raise KeyError
  | _ => Raise TypeError
  end.

Fixpoint chars (s : string) : list Json :=
  match s with
  | EmptyString => []
  | String c s' => JStr (String c "") :: chars s'
  end.

(** The items a [for] loop over [v] visits. *)
Definition py_iter (v : Json) : result (list Json) :=
  match v with
  | JList l => Ok l
  | JStr s => Ok (chars s)
  | JDict d => Ok (map JStr (keys d))
  | _ => Raise TypeError
  end.

(** [v.get(k, default)]: only a dict has [get]. *)
Definition get_default (v : Json) (k : string) (default : Json) : result Json :=
  match v with
  | JDict d => Ok (match lookup k d with Some x => x | None => default end)
  | _ => Raise AttributeError
  end.

(** [v.get(k)] *)
Definition get (v : Json) (k : string) : result Json := get_default v k JNull.

(** [v.items()] *)
Definition items (v : Json) : result Dict :=
  match v with
  | JDict d => Ok d
  | _ => Raise AttributeError
  end.

(** [out = []; for x in l: out.append(f(x))], stopping at the first
    exception. *)
Fixpoint for_append {A B} (f : A -> result B) (l : list A) (out : list B)
    : result (list B) :=
  match l with
  | [] => Ok out
  | x :: l' => rbind (f x) (fun y => for_append f l' (out ++ [y])%list)
  end.

(** ** convert_arrays_to_list *)

Fixpoint convert_arrays_to_list (data : Json) : Json :=
  match data with
  | JDict d => JDict (dict_comp (fun _ => true) convert_arrays_to_list d)
  | JList l => JList (map convert_arrays_to_list l)
  | _ => data
  end.

(** Lines 150-153 of [get_medical_expert]: the rows of
    [sectors_and_schemes], each copied to a dict and converted. *)
Definition formatted_sectors (sectors_and_schemes : list Dict) : list Json :=
  fold_left
    (fun acc sector => (acc ++ [convert_arrays_to_list (JDict sector)])%list)
    sectors_and_schemes [].

(** ** The two record transformations of the Zoho endpoints *)

(** Line 211: [{k: v for k, v in sector.items() if not k.startswith('$')}] *)
Definition cleaned_sector (sector : Json) : result Json :=
  rbind (items sector) (fun kvs =>
  Ok (JDict (dict_comp (fun k => negb (startswith k "$")) (fun v => v) kvs))).

(** Lines 209-212: the loop over [sectors_and_schemes]. *)
Definition cleaned_sectors (sectors_and_schemes : Json) : result (list Json) :=
  rbind (py_iter sectors_and_schemes) (fun sectors =>
  for_append cleaned_sector sectors []).

(** Lines 257-262: the dict built for one module [m]. *)
Definition module_entry (m : Json) : result Json :=
  rbind (get m "api_name") (fun api_name =>
  rbind (get m "module_name") (fun module_name =>
  rbind (get m "plural_label") (fun plural_label =>
  rbind (get m "singular_label") (fun singular_label =>
  Ok (JDict [("api_name", api_name);
             ("module_name", module_name);
             ("plural_label", plural_label);
             ("singular_label", singular_label)]))))).

(** Lines 254-264: [modules_data.get('modules', [])] and the list
    comprehension over it. *)
Definition module_list (modules_data : Json) : result (list Json) :=
  rbind (get_default modules_data "modules" (JList [])) (fun modules =>
  rbind (py_iter modules) (fun ms =>
  for_append module_entry ms [])).

(** ** Notions used in the statements *)

(** The value [m.get(k)] of a field of a dict with items [m]. *)
Definition field (k : string) (m : Dict) : Json :=
  match lookup k m with
  | Some x => x
  | None => JNull
  end.

(** The four fields kept of a module. *)
Definition projection (m : Dict) : Json :=
  JDict [("api_name", field "api_name" m);
         ("module_name", field "module_name" m);
         ("plural_label", field "plural_label" m);
         ("singular_label", field "singular_label" m)].

(** The first character of [k] is the dollar sign. *)
Definition dollar_key (k : string) : Prop :=
  exists rest, k = String "$"%char rest.

(** The items of a record whose keys are not dollar keys. *)
Definition stripped (d : Dict) : Dict :=
  filter (fun kv => negb (startswith (fst kv) "$")) d.

(** ** Dates *)

(** [datetime.max] is 9999-12-31T23:59:59.999999, day 3652059. *)
Definition datetime_end : Z := 3652059 * 86400 * 1000000.

(** [timedelta(seconds=n)] for an integer [n]. *)
Definition timedelta_seconds (n : Z) : result Z :=
  if (-999999999 <=? n / 86400) && (n / 86400 <=? 999999999)
  then Ok (n * 1000000) else Raise OverflowError.

(** [t + delta] on a datetime. *)
Definition datetime_add (t delta : Z) : result Z :=
  if (0 <=? t + delta) && (t + delta <? datetime_end)
  then Ok (t + delta) else Raise OverflowError.

(** [v - 60]: defined on integers and booleans only. *)
Definition minus_60 (v : Json) : result Z :=
  match v with
  | JInt n => Ok (n - 60)
  | JBool b => Ok ((if b then 1 else 0) - 60)
  | _ => Raise TypeError
  end.

(** ** The world: cache, clock and network *)

Record Cache : Type := mkCache {
  token : Json;
  expires_at : option Z
}.

(** [zoho_access_token_cache] as the module creates it. *)
Definition empty_cache : Cache := mkCache JNull None.

Inductive Method : Type := GET | POST.

(** The [Authorization] header [f'Zoho-oauthtoken {access_token}']:
    the formatted value is kept as a value. *)
Inductive Header : Type :=
| NoHeader
| ZohoOauthtoken (access_token : Json).

Record Request : Type := mkRequest {
  req_method : Method;
  req_url : string;
  req_headers : Header;
  req_params : list (string * string)
}.

(** A response of [requests]: [json] is what [response.json()] parses
    out of the body, [None] when the body is not JSON. *)
Record Response : Type := mkResponse {
  status_code : Z;
  text : string;
  json : option Json
}.

Record World : Type := mkWorld {
  cache : Cache;
  clock : nat -> Z;          (* the time at the n-th reading of the clock *)
  clock_reads : nat;
  server : list Request -> Request -> Response;
  log : list Request         (* the requests sent, oldest first *)
}.

Definition M (A : Type) : Type := World -> result A * World.

Definition ret {A} (a : A) : M A := fun w => (Ok a, w).
Definition raise {A} (e : exn) : M A := fun w => (Raise e, w).
Definition bind {A B} (m : M A) (k : A -> M B) : M B :=
  fun w => match m w with
           | (Ok a, w') => k a w'
           | (Raise e, w') => (Raise e, w')
           end.
Definition lift {A} (r : result A) : M A := fun w => (r, w).

Notation "x <- m ;; k" := (bind m (fun x => k))
  (at level 100, m at next level, right associativity).
Notation "m ;;; k" := (bind m (fun _ => k))
  (at level 100, right associativity).

(** The three ways the code changes the world. *)
Definition tick (w : World) : World :=
  mkWorld (cache w) (clock w) (S (clock_reads w)) (server w) (log w).

Definition store (c : Cache) (w : World) : World :=
  mkWorld c (clock w) (clock_reads w) (server w) (log w).

Definition record (r : Request) (w : World) : World :=
  mkWorld (cache w) (clock w) (clock_reads w) (server w) (log w ++ [r]).

(** [datetime.now()] *)
Definition now : M Z := fun w => (Ok (clock w (clock_reads w)), tick w).

Definition get_cache : M Cache := fun w => (Ok (cache w), w).

Definition set_cache (c : Cache) : M unit := fun w => (Ok tt, store c w).

(** [requests.get] and [requests.post]: one request, one response. *)
Definition send (r : Request) : M Response :=
  fun w => (Ok (server w (log w) r), record r w).

(** [response.json()] *)
Definition response_json (r : Response) : M Json :=
  match json r with
  | Some j => ret j
  | None => raise JSONDecodeError
  end.

(** [try: m except Exception as e: handler(e)] *)
Definition try_except {A} (m : M A) (handler : exn -> M A) : M A :=
  fun w => match m w with
           | (Ok a, w') => (Ok a, w')
           | (Raise e, w') => handler e w'
           end.

(** ** The token manager *)

Section App.

(** The configuration read from the environment when the module loads. *)
Variables ZOHO_REFRESH_TOKEN ZOHO_CLIENT_ID ZOHO_CLIENT_SECRET : string.
Variable BEARER_TOKEN : string.

(** [str(v)] of a list or a dict, which Python derives from [repr]. *)
Variable str_container : Json -> string.

Definition token_url : string := "https://accounts.zoho.com/oauth/v2/token".

Definition token_request : Request :=
  mkRequest POST token_url NoHeader
    [("refresh_token", ZOHO_REFRESH_TOKEN);
     ("client_id", ZOHO_CLIENT_ID);
     ("client_secret", ZOHO_CLIENT_SECRET);
     ("grant_type", "refresh_token")].

(** The test of lines 48-49: a truthy token, an expiry, and [now]
    strictly before it. *)
Definition cache_hit (c : Cache) (t : Z) : bool :=
  truthy (token c) &&
  match expires_at c with
  | Some e => t <? e
  | None => false
  end.

Definition AuthProviderError (body : string) : exn :=
  Exception ("Failed to get Zoho access token: " ++ body).

Definition get_zoho_access_token : M Json :=
  t <- now ;;
  c <- get_cache ;;
  if cache_hit c t then ret (token c)
  else
    response <- send token_request ;;
    if negb (status_code response =? 200)
    then raise (AuthProviderError (text response))
    else
      data <- response_json response ;;
      access_token <- lift (get data "access_token") ;;
      expires_in <- lift (get_default data "expires_in" (JInt 3600)) ;;
      c <- get_cache ;;
      set_cache (mkCache access_token (expires_at c)) ;;;
      secs <- lift (minus_60 expires_in) ;;
      delta <- lift (timedelta_seconds secs) ;;
      e <- lift (datetime_add t delta) ;;
      c <- get_cache ;;
      set_cache (mkCache (token c) (Some e)) ;;;
      ret access_token.

(** ** The record client *)

(** Truth value of an optional string argument: [None] and [''] are
    false. *)
Definition given (o : option string) : bool :=
  match o with
  | Some s => negb (s =? "")%string
  | None => false
  end.

Definition base_url : string := "https://www.zohoapis.com/crm/v2".

(** An optional string inside an f-string, or passed on as it is. *)
Definition fmt (o : option string) : string :=
  match o with
  | Some s => s
  | None => "None"
  end.

(** Lines 82-88 *)
Definition url (module_name : string) (record_id criteria : option string)
    : string :=
  if given record_id then base_url ++ "/" ++ module_name ++ "/" ++ fmt record_id
  else if given criteria then base_url ++ "/" ++ module_name ++ "/search"
  else base_url ++ "/" ++ module_name.

(** Lines 90-94 *)
Definition params (criteria fields : option string) : list (string * string) :=
  ((if given criteria then [("criteria", fmt criteria)] else []) ++
   (if given fields then [("fields", fmt fields)] else []))%list.

Definition CrmRequestError (module_name body : string) : exn :=
  Exception ("Failed to fetch from Zoho " ++ module_name ++ ": " ++ body).

Definition fetch_from_zoho (module_name : string)
    (record_id criteria fields : option string) : M Json :=
  access_token <- get_zoho_access_token ;;
  let headers := ZohoOauthtoken access_token in
  response <- send (mkRequest GET (url module_name record_id criteria) headers
                      (params criteria fields)) ;;
  if negb (status_code response =? 200)
  then raise (CrmRequestError module_name (text response))
  else response_json response.

(** ** The endpoints *)

(** What the handlers read of the incoming request. *)
Record HttpRequest : Type := mkHttpRequest {
  authorization : option string;     (* request.headers.get('Authorization') *)
  aphra_number : option string       (* request.args.get('aphra_number') *)
}.

(** The body of a reply: [jsonify(j)], or
    [jsonify({'error': prefix + str(e)})] for a caught exception [e]. *)
Inductive Body : Type :=
| Jsonify (j : Json)
| JsonifyError (prefix : string) (e : exn).

Definition Reply : Type := (Body * Z)%type.

Definition error (msg : string) : Body := Jsonify (JDict [("error", JStr msg)]).

(** The bearer gate every endpoint starts with (lines 171-178): the
    reply that refuses the request, if any. *)
Definition check_bearer (auth_header : option string) : M (option Reply) :=
  if negb (given auth_header) || negb (startswith (fmt auth_header) "Bearer ")
  then ret (Some (error "Missing or invalid Authorization header", 401))
  else
    match split (fmt auth_header) "Bearer " with
    | _ :: token :: _ =>
        if negb (token =? BEARER_TOKEN)%string
        then ret (Some (error "Invalid token", 401))
        else ret None
    | _ => raise IndexError
    end.

(** [str(v)] as an f-string formats it. *)
Definition py_str (v : Json) : string :=
  match v with
  | JNull => "None"
  | JBool true => "True"
  | JBool false => "False"
  | JInt n => str_int n
  | JStr s => s
  | _ => str_container v
  end.

Definition medical_expert_fields : string :=
  "id,Medical_Expert_First_Name,Last_Name,Doctor_ID,APHRA_Number,Vinici_User_Name".

Definition not_found : Reply := (error "Medical expert not found", 404).

Definition get_medical_expert_from_zoho (request : HttpRequest) : M Reply :=
  refused <- check_bearer (authorization request) ;;
  match refused with
  | Some reply => ret reply
  | None =>
      if negb (given (aphra_number request))
      then ret (error "aphra_number parameter is required", 400)
      else
        try_except
          (let criteria :=
             "(APHRA_Number:equals:" ++ fmt (aphra_number request) ++ ")" in
           medical_expert_response <-
             fetch_from_zoho "Medical_Experts" None (Some criteria)
               (Some medical_expert_fields) ;;
           data <- lift (get medical_expert_response "data") ;;
           empty <-
             (if negb (truthy data) then ret true
              else
                data <- lift (py_getitem_key medical_expert_response "data") ;;
                n <- lift (py_len data) ;;
                ret (n =? 0)) ;;
           if (empty : bool) then ret not_found
           else
             data <- lift (py_getitem_key medical_expert_response "data") ;;
             medical_expert <- lift (py_getitem_0 data) ;;
             medical_expert_id <- lift (get medical_expert "id") ;;
             let sectors_criteria :=
               "(Medical_Expert:equals:" ++ py_str medical_expert_id ++ ")" in
             sectors_response <-
               fetch_from_zoho "Sectors_and_Schemes" None
                 (Some sectors_criteria) None ;;
             sectors_and_schemes <-
               lift (get_default sectors_response "data" (JList [])) ;;
             cleaned <- lift (cleaned_sectors sectors_and_schemes) ;;
             v1 <- lift (get medical_expert "APHRA_Number") ;;
             v2 <- lift (get medical_expert "Medical_Expert_First_Name") ;;
             v3 <- lift (get medical_expert "Last_Name") ;;
             v4 <- lift (get medical_expert "Doctor_ID") ;;
             v5 <- lift (get medical_expert "Vinici_User_Name") ;;
             v6 <- lift (get medical_expert "id") ;;
             ret (Jsonify (JDict [("APHRA_Number", v1);
                                  ("Medical_Expert_First_Name", v2);
                                  ("Last_Name", v3);
                                  ("Doctor_ID", v4);
                                  ("Vinici_User_Name", v5);
                                  ("id", v6);
                                  ("Sectors_and_Schemes", JList cleaned)]),
                  200))
          (fun e => ret (JsonifyError "Zoho API error: " e, 500))
  end.

Definition modules_url : string :=
  "https://www.zohoapis.com/crm/v2/settings/modules".

Definition list_zoho_modules (request : HttpRequest) : M Reply :=
  refused <- check_bearer (authorization request) ;;
  match refused with
  | Some reply => ret reply
  | None =>
      try_except
        (access_token <- get_zoho_access_token ;;
         let headers := ZohoOauthtoken access_token in
         response <- send (mkRequest GET modules_url headers []) ;;
         if negb (status_code response =? 200)
         then ret (error ("Failed to fetch modules: " ++ text response), 500)
         else
           modules_data <- response_json response ;;
           ms <- lift (module_list modules_data) ;;
           ret (Jsonify (JDict [("modules", JList ms)]), 200))
        (fun e => ret (JsonifyError "Error: " e, 500))
  end.

End App.

(** ** Worlds used in the statements *)

(** No token stored, or no expiry, or an expiry that [t] has reached. *)
Definition absent_or_expired (c : Cache) (t : Z) : Prop :=
  truthy (token c) = false \/
  expires_at c = None \/
  exists e, expires_at c = Some e /\ e <= t.

(** An optional string that is there and not empty. *)
Definition present (o : option string) (s : string) : Prop :=
  o = Some s /\ s <> "".

(** A server that answers a [POST] with [auth] and a [GET] with [crm]. *)
Definition two_servers (auth crm : Response) : list Request -> Request -> Response :=
  fun _ r => match req_method r with
             | POST => auth
             | GET => crm
             end.

(** A world whose clock stands at [t] and where nothing was sent yet. *)
Definition world_at (c : Cache) (t : Z)
    (srv : list Request -> Request -> Response) : World :=
  mkWorld c (fun _ => t) 0 srv [].

(** Noon of 2024-01-01 and one hour later, in microseconds. *)
Definition noon : Z := (738885 * 86400 + 43200) * 1000000.
Definition one_pm : Z := noon + 3600 * 1000000.

Definition token_response (body : Dict) : Response :=
  mkResponse 200 "" (Some (JDict body)).

(** [sep in s] for a non-empty [sep]. *)
Fixpoint contains (sep s : string) : bool :=
  match s with
  | EmptyString => false
  | String _ s' => String.prefix sep s || contains sep s'
  end.

(** ** Start of the module *)

(** The five settings of lines 15-19 once the tests of lines 21-26 have
    passed. *)
Record Config : Type := mkConfig {
  DATABASE_URL : string;
  BEARER_TOKEN : string;
  ZOHO_REFRESH_TOKEN : string;
  ZOHO_CLIENT_ID : string;
  ZOHO_CLIENT_SECRET : string
}.

Inductive Startup : Type :=
| Loaded (c : Config)
| RuntimeError (msg : string).

(** Lines 15-26, [getenv] being [os.getenv] after [load_dotenv()]. *)
Definition startup (getenv : string -> option string) : Startup :=
  let DATABASE_URL := getenv "DATABASE_URL" in
  let BEARER_TOKEN := getenv "BEARER_TOKEN" in
  let ZOHO_REFRESH_TOKEN := getenv "ZOHO_REFRESH_TOKEN" in
  let ZOHO_CLIENT_ID := getenv "ZOHO_CLIENT_ID" in
  let ZOHO_CLIENT_SECRET := getenv "ZOHO_CLIENT_SECRET" in
  if negb (given DATABASE_URL)
  then RuntimeError "DATABASE_URL environment variable is not set"
  else if negb (given BEARER_TOKEN)
  then RuntimeError "BEARER_TOKEN environment variable is not set"
  else if negb (given ZOHO_REFRESH_TOKEN) || negb (given ZOHO_CLIENT_ID)
          || negb (given ZOHO_CLIENT_SECRET)
  then RuntimeError
         "Zoho credentials (ZOHO_REFRESH_TOKEN, ZOHO_CLIENT_ID, ZOHO_CLIENT_SECRET) are not set"
  else Loaded (mkConfig (fmt DATABASE_URL) (fmt BEARER_TOKEN)
                 (fmt ZOHO_REFRESH_TOKEN) (fmt ZOHO_CLIENT_ID)
                 (fmt ZOHO_CLIENT_SECRET)).

(** ** The database endpoint *)

(** What a call of [psycopg2] gives: a value, or a [psycopg2.Error]
    whose [str] is [msg]. *)
Inductive Db (A : Type) : Type :=
| Fetched (a : A)
| DatabaseError (msg : string).
Arguments Fetched {A} a.
Arguments DatabaseError {A} msg.

(** The database as the endpoint uses it: [connect] is
    [psycopg2.connect(DATABASE_URL)]; [medical_experts_rec] is the first
    query followed by [fetchone()], for an [aphra_number]; and
    [sectors_and_schemes] the second query followed by [fetchall()], for
    the [id] of the expert.  The rows are those of a [RealDictCursor]. *)
Record Database : Type := mkDatabase {
  connect : Db unit;
  medical_experts_rec : string -> Db (option Dict);
  sectors_and_schemes : Json -> Db (list Dict)
}.

(** What the endpoint does to the connection and its cursor. *)
Inductive DbEvent : Type :=
| Connected
| CursorOpened
| CursorClosed
| ConnectionClosed.

(** The [finally] clause of lines 163-167. *)
Definition close (cursor conn : bool) : list DbEvent :=
  ((if cursor then [CursorClosed] else []) ++
   (if conn then [ConnectionClosed] else []))%list.

Section DatabaseEndpoint.

Variable bearer_token : string.
Variable db : Database.

(** Lines 103-167.  The reply, and the events on the connection in
    order; no event when the request is refused before the [try]. *)
Definition get_medical_expert (request : HttpRequest)
    : M (Reply * list DbEvent) :=
  refused <- check_bearer bearer_token (authorization request) ;;
  match refused with
  | Some reply => ret (reply, [])
  | None =>
      if negb (given (aphra_number request))
      then ret (error "aphra_number parameter is required", 400, [])
      else
        match connect db with
        | DatabaseError msg =>
            ret (error ("Database error: " ++ msg), 500, close false false)
        | Fetched _ =>
            let opened := [Connected; CursorOpened] in
            match medical_experts_rec db (fmt (aphra_number request)) with
            | DatabaseError msg =>
                ret (error ("Database error: " ++ msg), 500,
                     (opened ++ close true true)%list)
            | Fetched medical_expert =>
                match medical_expert with
                | None =>
                    ret (error "Medical expert not found", 404,
                         (opened ++ close true true)%list)
                | Some row =>
                    if negb (truthy (JDict row))
                    then ret (error "Medical expert not found", 404,
                              (opened ++ close true true)%list)
                    else
                      match lookup "id" row with
                      | None =>
                          ret (JsonifyError "Internal server error: " KeyError,
                               500, (opened ++ close true true)%list)
                      | Some id =>
                          match sectors_and_schemes db id with
                          | DatabaseError msg =>
                              ret (error ("Database error: " ++ msg), 500,
                                   (opened ++ close true true)%list)
                          | Fetched rows =>
                              let response :=
                                dict_set row "Sectors_and_Schemes"
                                  (JList (formatted_sectors rows)) in
                              ret (Jsonify (JDict response), 200,
                                   (opened ++ close true true)%list)
                          end
                      end
                end
            end
        end
  end.

End DatabaseEndpoint.

(** Lines 271-273 *)
Definition health_check : Reply :=
  (Jsonify (JDict [("status", JStr "healthy")]), 200).

(** A database with one expert, [MED0001], and two rows for it. *)
Definition sample_expert : Dict :=
  [("APHRA_Number", JStr "MED0001");
   ("Medical_Expert_First_Name", JStr "Ada");
   ("Last_Name", JStr "Byron");
   ("Doctor_ID", JStr "D1");
   ("Record_Type", JStr "expert");
   ("id", JInt 7)].

Definition sample_rows : list Dict :=
  [[("medical_expert", JInt 7); ("sectors", JList [JStr "CTP"; JStr "WC"])];
   [("medical_expert", JInt 7); ("sectors", JList [])]].

Definition sample_db : Database :=
  mkDatabase (Fetched tt)
    (fun aphra => if (aphra =? "MED0001")%string
                  then Fetched (Some sample_expert) else Fetched None)
    (fun id => Fetched sample_rows).

(** A world with a token cached at noon that is good until one o'clock. *)
Definition sample_world (crm : Response) : World :=
  world_at (mkCache (JStr "T") (Some one_pm)) noon
    (two_servers (token_response []) crm).

(** A CRM with one expert and two sector records for it, and two
    modules; the token endpoint grants [T] for an hour. *)
Definition sample_record : Dict :=
  [("id", JStr "4876");
   ("APHRA_Number", JStr "MED0001");
   ("Last_Name", JStr "Byron");
   ("$approved", JBool true)].

Definition sample_sectors : list Dict :=
  [[("id", JStr "1"); ("$editable", JBool true); ("Sector", JStr "CTP")];
   [("id", JStr "2"); ("Sector", JStr "WC")]].

Definition sample_modules : list Dict :=
  [[("api_name", JStr "Leads"); ("module_name", JStr "Leads");
    ("plural_label", JStr "Leads"); ("singular_label", JStr "Lead");
    ("id", JStr "9")];
   [("api_name", JStr "Medical_Experts")]].

Definition sample_crm : list Request -> Request -> Response :=
  fun _ r =>
    match req_method r with
    | POST =>
        token_response [("access_token", JStr "T"); ("expires_in", JInt 3600)]
    | GET =>
        if (req_url r =? "https://www.zohoapis.com/crm/v2/Medical_Experts/search")%string
        then mkResponse 200 ""
               (Some (JDict [("data", JList [JDict sample_record])]))
        else if (req_url r =? "https://www.zohoapis.com/crm/v2/Sectors_and_Schemes/search")%string
        then mkResponse 200 ""
               (Some (JDict [("data", JList (map JDict sample_sectors))]))
        else if (req_url r =? "https://www.zohoapis.com/crm/v2/settings/modules")%string
        then mkResponse 200 ""
               (Some (JDict [("modules", JList (map JDict sample_modules))]))
        else mkResponse 404 "no such module" None
    end.

(** A CRM that is down, behind a token endpoint that works. *)
Definition failing_crm : list Request -> Request -> Response :=
  two_servers
    (token_response [("access_token", JStr "T"); ("expires_in", JInt 3600)])
    (mkResponse 503 "unavailable" None).

Definition sample_request : HttpRequest :=
  mkHttpRequest (Some "Bearer secret") (Some "MED0001").

Definition sample_env (name : string) : option string :=
  if (name =? "DATABASE_URL")%string then Some "postgres://db"
  else if (name =? "BEARER_TOKEN")%string then Some "secret"
  else if (name =? "ZOHO_REFRESH_TOKEN")%string then Some "r"
  else if (name =? "ZOHO_CLIENT_ID")%string then Some "c"
  else if (name =? "ZOHO_CLIENT_SECRET")%string then Some "s"
  else None.

(** A CRM like [sample_crm] whose sector search and module listing
    answer with [sectors] and [modules]. *)
Definition crm_answering (sectors modules : Response)
    : list Request -> Request -> Response :=
  fun _ r =>
    match req_method r with
    | POST =>
        token_response [("access_token", JStr "T"); ("expires_in", JInt 3600)]
    | GET =>
        if (req_url r =? "https://www.zohoapis.com/crm/v2/Medical_Experts/search")%string
        then mkResponse 200 ""
               (Some (JDict [("data", JList [JDict sample_record])]))
        else if (req_url r =? "https://www.zohoapis.com/crm/v2/Sectors_and_Schemes/search")%string
        then sectors
        else modules
    end.

(** * Properties *)

(** ** Dicts *)

Section DictFacts.

Lemma dict_set_fresh (d : Dict) (k : string) (v : Json) :
  ~ In k (keys d) -> dict_set d k v = (d ++ [(k, v)])%list.
Proof.
  induction d as [|[k' v'] d IH]; simpl; intros Hk; [reflexivity|].
  destruct (String.eqb_spec k' k) as [->|Hne].
  - exfalso. apply Hk. now left.
  - f_equal. apply IH. intros Hin. apply Hk. now right.
Qed.

Lemma keys_app (d1 d2 : Dict) : keys (d1 ++ d2)%list = (keys d1 ++ keys d2)%list.
Proof. unfold keys. apply map_app. Qed.

(** On items with distinct keys a comprehension is a filter followed by
    a map; [acc] is the dict built so far. *)
Lemma dict_comp_from (keep : string -> bool) (f : Json -> Json) (d acc : Dict) :
  NoDup (keys acc ++ keys d)%list ->
  fold_left
    (fun acc kv => if keep (fst kv) then dict_set acc (fst kv) (f (snd kv))
                   else acc) d acc
  = (acc ++ map (fun kv => (fst kv, f (snd kv)))
              (filter (fun kv => keep (fst kv)) d))%list.
Proof.
  revert acc. induction d as [|[k v] d IH]; simpl; intros acc Hnd.
  - now rewrite app_nil_r.
  - assert (Hfresh : ~ In k (keys acc)).
    { intros Hin. apply NoDup_remove_2 in Hnd. apply Hnd.
      apply in_or_app. now left. }
    destruct (keep k).
    + rewrite dict_set_fresh by exact Hfresh.
      rewrite IH.
      * simpl. now rewrite <- app_assoc.
      * rewrite keys_app. simpl. rewrite <- app_assoc. simpl.
        exact Hnd.
    + apply IH. apply NoDup_remove_1 in Hnd. exact Hnd.
Qed.

Lemma dict_comp_filter_map (keep : string -> bool) (f : Json -> Json) (d : Dict) :
  NoDup (keys d) ->
  dict_comp keep f d
  = map (fun kv => (fst kv, f (snd kv))) (filter (fun kv => keep (fst kv)) d).
Proof.
  intros Hnd. unfold dict_comp. now rewrite dict_comp_from.
Qed.

Lemma map_pair_id (d : Dict) : map (fun kv : string * Json => (fst kv, snd kv)) d = d.
Proof. induction d as [|[k v] d IH]; simpl; congruence. Qed.

Lemma keys_filter_NoDup (p : string * Json -> bool) (d : Dict) :
  NoDup (keys d) -> NoDup (keys (filter p d)).
Proof.
  induction d as [|[k v] d IH]; simpl; intros Hnd; [constructor|].
  inversion Hnd as [|? ? Hk Hd]; subst.
  destruct (p (k, v)); simpl; [constructor|]; auto.
  intros Hin. apply Hk. unfold keys in *. apply in_map_iff in Hin.
  destruct Hin as [[k' v'] [Hfst Hin]]. simpl in Hfst. subst k'.
  apply filter_In in Hin. apply in_map_iff. exists (k, v'). tauto.
Qed.

Lemma lookup_In (d : Dict) (k : string) (v : Json) :
  NoDup (keys d) -> (lookup k d = Some v <-> In (k, v) d).
Proof.
  induction d as [|[k' v'] d IH]; simpl; intros Hnd.
  - split; [discriminate | tauto].
  - inversion Hnd as [|? ? Hk Hd]; subst.
    destruct (String.eqb_spec k' k) as [->|Hne].
    + split.
      * intros [= ->]. now left.
      * intros [[= ->]|Hin]; [reflexivity|].
        exfalso. apply Hk. unfold keys. apply in_map_iff. now exists (k, v).
    + rewrite (IH Hd). split; [tauto|].
      intros [[= -> ->]|Hin]; [congruence | exact Hin].
Qed.

End DictFacts.

(** ** Induction on values *)

Lemma Json_nested_ind (P : Json -> Prop) :
  P JNull ->
  (forall b, P (JBool b)) ->
  (forall n, P (JInt n)) ->
  (forall s, P (JStr s)) ->
  (forall l, Forall P l -> P (JList l)) ->
  (forall d, Forall (fun kv => P (snd kv)) d -> P (JDict d)) ->
  forall v, P v.
Proof.
  intros HN HB HI HS HL HD.
  fix IH 1. intros [ | b | n | s | l | d ].
  - exact HN.
  - apply HB.
  - apply HI.
  - apply HS.
  - apply HL. induction l as [|x l IHl]; constructor; [apply IH | exact IHl].
  - apply HD. induction d as [|[k x] d IHd]; constructor; [apply IH | exact IHd].
Qed.

Lemma wf_JList (l : list Json) : wf (JList l) <-> Forall wf l.
Proof.
  induction l as [|x l IH].
  - simpl. split; [constructor | tauto].
  - split.
    + intros [Hx Hl]. constructor; [exact Hx | now apply IH].
    + intros H. inversion H; subst. split; [assumption | now apply IH].
Qed.

Lemma wf_JDict (d : Dict) :
  wf (JDict d) <-> NoDup (keys d) /\ Forall (fun kv => wf (snd kv)) d.
Proof.
  assert (Hall : forall d : Dict,
    (fix all (d : Dict) : Prop :=
       match d with [] => True | kv :: d' => wf (snd kv) /\ all d' end) d
    <-> Forall (fun kv => wf (snd kv)) d).
  { clear d. induction d as [|kv d IH].
    - split; [constructor | tauto].
    - split.
      + intros [Hx Hl]. constructor; [exact Hx | now apply IH].
      + intros H. inversion H; subst. split; [assumption | now apply IH]. }
  simpl. now rewrite Hall.
Qed.

(** ** Loops *)

Lemma for_append_map {A B} (f : A -> result B) (g : A -> B) (l : list A) :
  (forall x, In x l -> f x = Ok (g x)) ->
  forall out, for_append f l out = Ok (out ++ map g l)%list.
Proof.
  induction l as [|x l IH]; simpl; intros Hf out.
  - now rewrite app_nil_r.
  - rewrite (Hf x) by now left. simpl.
    rewrite IH by (intros y Hy; apply Hf; now right).
    now rewrite <- app_assoc.
Qed.

Lemma fold_append_map {A B} (g : A -> B) (l : list A) :
  forall out, fold_left (fun acc x => (acc ++ [g x])%list) l out
              = (out ++ map g l)%list.
Proof.
  induction l as [|x l IH]; simpl; intros out.
  - now rewrite app_nil_r.
  - rewrite IH. now rewrite <- app_assoc.
Qed.

(** ** convert_arrays_to_list *)

Lemma filter_all {A} (l : list A) : filter (fun _ => true) l = l.
Proof. induction l; simpl; congruence. Qed.

Lemma convert_wf (v : Json) : wf v -> convert_arrays_to_list v = v.
Proof.
  induction v as [ | b | n | s | l IHl | d IHd ] using Json_nested_ind;
    intros Hwf; try reflexivity.
  - apply wf_JList in Hwf. simpl. f_equal.
    induction l as [|x l IH]; [reflexivity|].
    inversion IHl; subst. inversion Hwf; subst.
    simpl. f_equal; auto.
  - apply wf_JDict in Hwf. destruct Hwf as [Hnd Hall].
    simpl. f_equal.
    rewrite dict_comp_filter_map by exact Hnd.
    rewrite filter_all. clear Hnd.
    induction d as [|[k x] d IH]; [reflexivity|].
    inversion IHd; subst. inversion Hall; subst.
    simpl in *. f_equal; auto. f_equal; auto.
Qed.

(** C9. [convert_arrays_to_list] returns every value built from dicts,
    lists and scalars as it is, so the loop of the database endpoint that
    formats the rows of [sectors_and_schemes] yields the rows unchanged. *)
Theorem convert_arrays_to_list_identity (v : Json) (rows : list Dict) :
  wf v ->
  Forall (fun row => wf (JDict row)) rows ->
  convert_arrays_to_list v = v /\
  formatted_sectors rows = map JDict rows.
Proof.
  intros Hv Hrows. split; [now apply convert_wf|].
  unfold formatted_sectors.
  rewrite (fold_append_map (fun row => convert_arrays_to_list (JDict row))).
  cbn [app]. apply map_ext_in. intros row Hin.
  apply convert_wf. rewrite Forall_forall in Hrows. now apply Hrows.
Qed.

Lemma convert_arrays_to_list_identity_witness :
  let v := JDict [("id", JInt 7);
                  ("schemes", JList [JStr "a"; JDict [("x", JNull)]]);
                  ("active", JBool true)] in
  let rows := [[("sector", JStr "S"); ("tags", JList [JStr "t"; JStr "u"])]] in
  convert_arrays_to_list v = v /\ formatted_sectors rows = map JDict rows.
Proof.
  intros v rows.
  apply (convert_arrays_to_list_identity v rows).
  - simpl. repeat split; repeat constructor; simpl; intuition discriminate.
  - repeat constructor; simpl; intuition discriminate.
Defined.

(** ** Metadata stripping *)

Lemma startswith_dollar (k : string) :
  startswith k "$" = true <-> dollar_key k.
Proof.
  unfold startswith, dollar_key. destruct k as [|c k]; cbn [prefix].
  - split; [discriminate | intros [rest H]; discriminate].
  - destruct (ascii_dec "$" c) as [<-|Hne].
    + split; [now exists k | now destruct k].
    + split; [discriminate | intros [rest [= H _]]; now elim Hne].
Qed.

Lemma cleaned_sector_stripped (d : Dict) :
  NoDup (keys d) -> cleaned_sector (JDict d) = Ok (JDict (stripped d)).
Proof.
  intros Hnd. unfold cleaned_sector. simpl.
  rewrite dict_comp_filter_map by exact Hnd.
  now rewrite map_pair_id.
Qed.

Lemma stripped_In (d : Dict) (k : string) (v : Json) :
  In (k, v) (stripped d) <-> In (k, v) d /\ ~ dollar_key k.
Proof.
  unfold stripped. rewrite filter_In. simpl.
  rewrite <- startswith_dollar.
  destruct (startswith k "$"); simpl; intuition congruence.
Qed.

Lemma stripped_clean (d : Dict) :
  (forall k, In k (keys d) -> ~ dollar_key k) -> stripped d = d.
Proof.
  induction d as [|[k v] d IH]; simpl; intros Hk; [reflexivity|].
  assert (Hs : startswith k "$" = false).
  { destruct (startswith k "$") eqn:E; [|reflexivity].
    exfalso. apply (Hk k); [now left | now apply startswith_dollar]. }
  rewrite Hs. simpl. f_equal. apply IH. intros k' Hin. apply Hk. now right.
Qed.

Lemma stripped_idempotent (d : Dict) : stripped (stripped d) = stripped d.
Proof.
  apply stripped_clean. intros k Hin Hdollar.
  unfold keys in Hin. apply in_map_iff in Hin.
  destruct Hin as [[k' v] [Hfst Hin]]. simpl in Hfst. subst k'.
  apply stripped_In in Hin. tauto.
Qed.

(** C6. On a record (a dict with items [d]) the stripping of line 211
    yields the items of [d] whose key does not begin with the dollar sign,
    in their order and with their values as they are, nested values
    included; stripping the result again, or a record without such keys,
    changes nothing; and the loop applies it to every record of the data
    array. *)
Theorem metadata_stripping (d : Dict) (data : list Dict) :
  NoDup (keys d) ->
  Forall (fun r => NoDup (keys r)) data ->
  cleaned_sector (JDict d) = Ok (JDict (stripped d)) /\
  (forall k v, In (k, v) (stripped d) <-> In (k, v) d /\ ~ dollar_key k) /\
  (forall k, lookup k (stripped d) = if startswith k "$" then None else lookup k d) /\
  cleaned_sector (JDict (stripped d)) = Ok (JDict (stripped d)) /\
  ((forall k, In k (keys d) -> ~ dollar_key k) ->
   cleaned_sector (JDict d) = Ok (JDict d)) /\
  cleaned_sectors (JList (map JDict data))
  = Ok (map (fun r => JDict (stripped r)) data).
Proof.
  intros Hnd Hdata.
  assert (Hnd' : NoDup (keys (stripped d))) by now apply keys_filter_NoDup.
  split; [|split; [|split; [|split; [|split]]]].
  - now apply cleaned_sector_stripped.
  - intros k v. apply stripped_In.
  - intros k. clear Hnd Hnd'. induction d as [|[k' v] d IH].
    + simpl. now destruct (startswith k "$").
    + unfold stripped. cbn [filter fst lookup]. fold (stripped d).
      destruct (startswith k' "$") eqn:E; cbn [negb lookup];
        destruct (String.eqb_spec k' k) as [->|Hne];
        rewrite ?IH, ?E; reflexivity.
  - rewrite cleaned_sector_stripped by exact Hnd'.
    now rewrite stripped_idempotent.
  - intros Hclean. rewrite cleaned_sector_stripped by exact Hnd.
    now rewrite stripped_clean.
  - unfold cleaned_sectors. simpl.
    rewrite (for_append_map cleaned_sector
               (fun x => match x with
                         | JDict r => JDict (stripped r)
                         | _ => x
                         end)).
    + simpl. f_equal. rewrite map_map. reflexivity.
    + intros x Hin. apply in_map_iff in Hin. destruct Hin as [r [<- Hin]].
      apply cleaned_sector_stripped.
      rewrite Forall_forall in Hdata. now apply Hdata.
Qed.

Lemma metadata_stripping_witness :
  let d := [("$id", JStr "1"); ("Name", JStr "X");
            ("Owner", JDict [("$system", JBool true); ("name", JStr "o")])] in
  cleaned_sector (JDict d)
  = Ok (JDict [("Name", JStr "X");
               ("Owner", JDict [("$system", JBool true); ("name", JStr "o")])]) /\
  cleaned_sectors (JList [JDict d; JDict [("Name", JStr "Y")]])
  = Ok [JDict [("Name", JStr "X");
               ("Owner", JDict [("$system", JBool true); ("name", JStr "o")])];
        JDict [("Name", JStr "Y")]].
Proof.
  intros d.
  assert (Hd : NoDup (keys d))
    by (repeat constructor; simpl; intuition discriminate).
  assert (Hdata : Forall (fun r => NoDup (keys r)) [d; [("Name", JStr "Y")]])
    by (repeat constructor; simpl; intuition discriminate).
  destruct (metadata_stripping d [d; [("Name", JStr "Y")]] Hd Hdata)
    as (H1 & _ & _ & _ & _ & H6).
  split; [exact H1 | exact H6].
Defined.

(** ** Module listing *)

Lemma module_entry_projection (m : Dict) :
  module_entry (JDict m) = Ok (projection m).
Proof. reflexivity. Qed.

(** C7. For a document whose [modules] entry is an array of objects the
    listing is the array of their projections: one dict per module, in
    the order of the array, holding the four fields [api_name],
    [module_name], [plural_label] and [singular_label] with the values
    [m.get] gives, and nothing else.  The transformation is a function
    of the document alone. *)
Theorem module_list_projection (doc : Dict) (ms : list Dict) :
  lookup "modules" doc = Some (JList (map JDict ms)) ->
  module_list (JDict doc) = Ok (map projection ms) /\
  List.length (map projection ms) = List.length ms /\
  (forall i m, nth_error ms i = Some m ->
     nth_error (map projection ms) i
     = Some (JDict [("api_name", field "api_name" m);
                    ("module_name", field "module_name" m);
                    ("plural_label", field "plural_label" m);
                    ("singular_label", field "singular_label" m)])).
Proof.
  intros Hdoc. repeat split.
  - unfold module_list. simpl. rewrite Hdoc. simpl.
    rewrite (for_append_map module_entry
               (fun x => match x with JDict m => projection m | _ => x end)).
    + simpl. f_equal. now rewrite map_map.
    + intros x Hin. apply in_map_iff in Hin. destruct Hin as [m [<- _]].
      apply module_entry_projection.
  - apply length_map.
  - intros i m Hi. now rewrite nth_error_map, Hi.
Qed.

Lemma module_list_projection_witness :
  module_list
    (JDict [("modules",
             JList [JDict [("api_name", JStr "A"); ("module_name", JStr "B");
                           ("plural_label", JStr "Bs");
                           ("singular_label", JStr "B");
                           ("extra", JStr "ignored")];
                    JDict [("api_name", JStr "C")]])])
  = Ok [JDict [("api_name", JStr "A"); ("module_name", JStr "B");
               ("plural_label", JStr "Bs"); ("singular_label", JStr "B")];
        JDict [("api_name", JStr "C"); ("module_name", JNull);
               ("plural_label", JNull); ("singular_label", JNull)]].
Proof.
  exact (proj1 (module_list_projection
                  [("modules",
                    JList [JDict [("api_name", JStr "A"); ("module_name", JStr "B");
                                  ("plural_label", JStr "Bs");
                                  ("singular_label", JStr "B");
                                  ("extra", JStr "ignored")];
                           JDict [("api_name", JStr "C")]])]
                  [[("api_name", JStr "A"); ("module_name", JStr "B");
                    ("plural_label", JStr "Bs"); ("singular_label", JStr "B");
                    ("extra", JStr "ignored")];
                   [("api_name", JStr "C")]]
                  eq_refl)).
Defined.

(** ** The token manager *)

Ltac world :=
  cbn [tick record store cache clock clock_reads server log fst snd].

Section TokenManager.

Variables refresh_token client_id client_secret : string.

Local Abbreviation get_token :=
  (get_zoho_access_token refresh_token client_id client_secret).
Local Abbreviation refresh :=
  (token_request refresh_token client_id client_secret).

Lemma cache_hit_false (c : Cache) (t : Z) :
  cache_hit c t = false <-> absent_or_expired c t.
Proof.
  unfold cache_hit, absent_or_expired.
  destruct (truthy (token c)); simpl.
  - destruct (expires_at c) as [e|].
    + rewrite Z.ltb_ge. split.
      * intros H. right. right. now exists e.
      * intros [H|[H|[e' [[= <-] H]]]]; [discriminate | discriminate | exact H].
    + split; auto.
  - split; auto.
Qed.

Lemma token_hit (w : World) :
  cache_hit (cache w) (clock w (clock_reads w)) = true ->
  get_token w = (Ok (token (cache w)), tick w).
Proof.
  intros H. unfold get_zoho_access_token, bind, now, get_cache. world.
  now rewrite H.
Qed.

Lemma token_refused (w : World) :
  cache_hit (cache w) (clock w (clock_reads w)) = false ->
  status_code (server w (log w) refresh) <> 200 ->
  get_token w
  = (Raise (AuthProviderError (text (server w (log w) refresh))),
     record refresh (tick w)).
Proof.
  intros Hmiss Hstatus.
  unfold get_zoho_access_token, bind, now, get_cache, send.
  world. rewrite Hmiss. world.
  apply Z.eqb_neq in Hstatus. now rewrite Hstatus.
Qed.

Lemma timedelta_in_range (t secs : Z) :
  0 <= t < datetime_end ->
  0 <= t + secs * 1000000 < datetime_end ->
  timedelta_seconds secs = Ok (secs * 1000000).
Proof.
  intros Ht He. unfold timedelta_seconds, datetime_end in *.
  assert (H1 : -999999999 <= secs / 86400).
  { apply Z.div_le_lower_bound; lia. }
  assert (H2 : secs / 86400 <= 999999999).
  { apply Z.div_le_upper_bound; lia. }
  apply Z.leb_le in H1, H2. now rewrite H1, H2.
Qed.

Lemma token_granted (w : World) (d : Dict) (expires_in : Z) :
  let t := clock w (clock_reads w) in
  let access_token := field "access_token" d in
  cache_hit (cache w) t = false ->
  status_code (server w (log w) refresh) = 200 ->
  json (server w (log w) refresh) = Some (JDict d) ->
  lookup "expires_in" d = Some (JInt expires_in) \/
  lookup "expires_in" d = None /\ expires_in = 3600 ->
  0 <= t < datetime_end ->
  0 <= t + (expires_in - 60) * 1000000 < datetime_end ->
  get_token w
  = (Ok access_token,
     store (mkCache access_token (Some (t + (expires_in - 60) * 1000000)))
       (record refresh (tick w))).
Proof.
  intros t access_token Hmiss Hstatus Hjson Hexp Ht He.
  unfold get_zoho_access_token, bind, now, get_cache, send, response_json.
  world. fold t. rewrite Hmiss. world.
  rewrite Hstatus, Hjson. cbn [Z.eqb Pos.eqb negb ret].
  unfold lift, get, get_default, set_cache. fold (field "access_token" d).
  fold access_token.
  assert (Hminus : minus_60 (match lookup "expires_in" d with
                             | Some x => x
                             | None => JInt 3600
                             end) = Ok (expires_in - 60)).
  { destruct Hexp as [-> | [-> ->]]; reflexivity. }
  rewrite Hminus.
  rewrite (timedelta_in_range t (expires_in - 60) Ht He).
  unfold datetime_add.
  destruct He as [He1 He2]. apply Z.leb_le in He1. apply Z.ltb_lt in He2.
  rewrite He1, He2. reflexivity.
Qed.

Lemma token_miss_log (w : World) :
  cache_hit (cache w) (clock w (clock_reads w)) = false ->
  log (snd (get_token w)) = (log w ++ [refresh])%list.
Proof.
  intros Hmiss.
  unfold get_zoho_access_token, bind, now, get_cache, send, response_json.
  world. rewrite Hmiss. world.
  destruct (negb _); [reflexivity|].
  destruct (json _) as [data|]; [|reflexivity].
  unfold ret at 1.
  unfold lift, get, get_default, set_cache.
  destruct data; try reflexivity.
  destruct (minus_60 _); [|reflexivity].
  destruct (timedelta_seconds _); [|reflexivity].
  destruct (datetime_add _ _); reflexivity.
Qed.

(** C1. When a token is stored (a value Python takes for true, which is
    what line 48 asks of it) and the clock reads a time strictly before
    the recorded expiry, [get_zoho_access_token] returns the stored token,
    sends nothing and leaves the cache as it is. *)
Theorem cached_token_returned (w : World) (e : Z) :
  truthy (token (cache w)) = true ->
  expires_at (cache w) = Some e ->
  clock w (clock_reads w) < e ->
  fst (get_token w) = Ok (token (cache w)) /\
  log (snd (get_token w)) = log w /\
  cache (snd (get_token w)) = cache w.
Proof.
  intros Htok Hexp Hlt.
  rewrite token_hit.
  - now world.
  - unfold cache_hit. rewrite Htok, Hexp. now apply Z.ltb_lt.
Qed.

(** C2. When no token is stored or the stored one has expired, one
    request is sent, the refresh; if the answer has status 200 and a JSON
    object whose [expires_in] is an integer, or absent and then taken as
    3600, the call returns the object's [access_token] and the cache holds
    that token with the expiry [now + expires_in - 60] seconds, [now]
    being the time read at the start of the call (both times within the
    range of [datetime]). *)
Theorem refresh_on_miss (w : World) :
  let t := clock w (clock_reads w) in
  let response := server w (log w) refresh in
  absent_or_expired (cache w) t ->
  log (snd (get_token w)) = (log w ++ [refresh])%list /\
  forall (d : Dict) (expires_in : Z),
    status_code response = 200 ->
    json response = Some (JDict d) ->
    lookup "expires_in" d = Some (JInt expires_in) \/
    lookup "expires_in" d = None /\ expires_in = 3600 ->
    0 <= t < datetime_end ->
    0 <= t + (expires_in - 60) * 1000000 < datetime_end ->
    fst (get_token w) = Ok (field "access_token" d) /\
    cache (snd (get_token w))
    = mkCache (field "access_token" d)
        (Some (t + (expires_in - 60) * 1000000)).
Proof.
  intros t response Hmiss. apply cache_hit_false in Hmiss. split.
  - now apply token_miss_log.
  - intros d expires_in Hstatus Hjson Hexp Ht He.
    rewrite (token_granted w d expires_in); auto.
Qed.

(** C3. When a refresh is due and its answer has a status outside
    200..299, [get_zoho_access_token] raises the exception of line 63,
    whose message ends with the body of the answer, and the cache is what
    it was before the call. *)
Theorem refresh_refused (w : World) :
  let t := clock w (clock_reads w) in
  let response := server w (log w) refresh in
  absent_or_expired (cache w) t ->
  ~ (200 <= status_code response < 300) ->
  fst (get_token w) = Raise (AuthProviderError (text response)) /\
  AuthProviderError (text response)
  = Exception ("Failed to get Zoho access token: " ++ text response) /\
  cache (snd (get_token w)) = cache w /\
  log (snd (get_token w)) = (log w ++ [refresh])%list.
Proof.
  intros t response Hmiss Hstatus. apply cache_hit_false in Hmiss.
  rewrite token_refused; [now world | exact Hmiss | ].
  fold response. lia.
Qed.

(** C10. When a refresh is answered with status 200 and a JSON object
    without [access_token] (and with a usable [expires_in], as in C2),
    the call returns [None] without raising and stores [None] as the
    token; any later call made while the cache still holds it sends a
    refresh again instead of serving [None]. *)
Theorem missing_access_token (w : World) (d : Dict) (expires_in : Z) :
  let t := clock w (clock_reads w) in
  let response := server w (log w) refresh in
  absent_or_expired (cache w) t ->
  status_code response = 200 ->
  json response = Some (JDict d) ->
  lookup "access_token" d = None ->
  lookup "expires_in" d = Some (JInt expires_in) \/
  lookup "expires_in" d = None /\ expires_in = 3600 ->
  0 <= t < datetime_end ->
  0 <= t + (expires_in - 60) * 1000000 < datetime_end ->
  fst (get_token w) = Ok JNull /\
  token (cache (snd (get_token w))) = JNull /\
  forall w' : World,
    cache w' = cache (snd (get_token w)) ->
    log (snd (get_token w')) = (log w' ++ [refresh])%list.
Proof.
  intros t response Hmiss Hstatus Hjson Htok Hexp Ht He.
  apply cache_hit_false in Hmiss.
  rewrite (token_granted w d expires_in); auto.
  unfold field. rewrite Htok. world. repeat split.
  intros w' Hcache. apply token_miss_log.
  unfold cache_hit. now rewrite Hcache.
Qed.

End TokenManager.

Lemma cached_token_returned_witness :
  let w := world_at (mkCache (JStr "T") (Some one_pm)) noon
             (two_servers (token_response []) (token_response [])) in
  fst (get_zoho_access_token "r" "c" "s" w) = Ok (JStr "T") /\
  log (snd (get_zoho_access_token "r" "c" "s" w)) = [] /\
  cache (snd (get_zoho_access_token "r" "c" "s" w))
  = mkCache (JStr "T") (Some one_pm).
Proof.
  intros w.
  apply (cached_token_returned "r" "c" "s" w one_pm); reflexivity.
Defined.

Lemma refresh_on_miss_witness :
  let body := [("access_token", JStr "T"); ("expires_in", JInt 7200)] in
  let w := world_at empty_cache noon
             (two_servers (token_response body) (token_response [])) in
  log (snd (get_zoho_access_token "r" "c" "s" w)) = [token_request "r" "c" "s"] /\
  fst (get_zoho_access_token "r" "c" "s" w) = Ok (JStr "T") /\
  cache (snd (get_zoho_access_token "r" "c" "s" w))
  = mkCache (JStr "T") (Some (noon + (7200 - 60) * 1000000)).
Proof.
  intros body w.
  destruct (refresh_on_miss "r" "c" "s" w (or_introl eq_refl)) as [Hlog Hok].
  split; [exact Hlog|].
  apply (Hok body 7200); try reflexivity.
  - now left.
  - vm_compute. split; [discriminate | reflexivity].
  - vm_compute. split; [discriminate | reflexivity].
Defined.

Lemma refresh_refused_witness :
  let w := world_at (mkCache (JStr "old") (Some noon)) one_pm
             (two_servers (mkResponse 401 "invalid_client" None)
                (token_response [])) in
  fst (get_zoho_access_token "r" "c" "s" w)
  = Raise (Exception "Failed to get Zoho access token: invalid_client") /\
  cache (snd (get_zoho_access_token "r" "c" "s" w))
  = mkCache (JStr "old") (Some noon).
Proof.
  intros w.
  assert (Hmiss : absent_or_expired (cache w) (clock w (clock_reads w))).
  { right. right. exists noon. split; [reflexivity | vm_compute; discriminate]. }
  assert (Hstatus : ~ (200 <= status_code
                                (server w (log w) (token_request "r" "c" "s"))
                       < 300)).
  { vm_compute. intros [_ H]. discriminate H. }
  destruct (refresh_refused "r" "c" "s" w Hmiss Hstatus) as (H1 & _ & H3 & _).
  split; [exact H1 | exact H3].
Defined.

Lemma missing_access_token_witness :
  let body := [("expires_in", JInt 3600)] in
  let w := world_at empty_cache noon
             (two_servers (token_response body) (token_response [])) in
  let w1 := snd (get_zoho_access_token "r" "c" "s" w) in
  fst (get_zoho_access_token "r" "c" "s" w) = Ok JNull /\
  token (cache w1) = JNull /\
  log (snd (get_zoho_access_token "r" "c" "s" w1))
  = (log w1 ++ [token_request "r" "c" "s"])%list.
Proof.
  intros body w w1.
  assert (Ht : 0 <= clock w (clock_reads w) < datetime_end)
    by (vm_compute; split; [discriminate | reflexivity]).
  assert (He : 0 <= clock w (clock_reads w) + (3600 - 60) * 1000000
               < datetime_end)
    by (vm_compute; split; [discriminate | reflexivity]).
  destruct (missing_access_token "r" "c" "s" w body 3600
              (or_introl eq_refl) eq_refl eq_refl eq_refl
              (or_introl eq_refl) Ht He) as (H1 & H2 & H3).
  split; [exact H1|]. split; [exact H2|].
  apply H3. reflexivity.
Defined.

(** ** The record client *)

Section RecordClient.

Variables refresh_token client_id client_secret : string.

Local Abbreviation get_token :=
  (get_zoho_access_token refresh_token client_id client_secret).
Local Abbreviation fetch :=
  (fetch_from_zoho refresh_token client_id client_secret).

Lemma given_true (o : option string) :
  given o = true <-> exists s, present o s.
Proof.
  unfold given, present. destruct o as [s|].
  - destruct (String.eqb_spec s ""); simpl; split.
    + discriminate.
    + intros [s' [[= <-] H]]. contradiction.
    + intros _. now exists s.
    + reflexivity.
  - split; [discriminate | intros [s [H _]]; discriminate].
Qed.

Lemma given_false (o : option string) :
  given o = false <-> forall s, ~ present o s.
Proof.
  rewrite <- not_true_iff_false, given_true. split.
  - intros H s Hs. apply H. now exists s.
  - intros H [s Hs]. now apply (H s).
Qed.

Lemma given_fmt (o : option string) (s : string) : present o s -> fmt o = s.
Proof. intros [-> _]. reflexivity. Qed.

Lemma in_param (k k' v : string) (o : option string) :
  In (k, v) (if given o then [(k', fmt o)] else []) <-> k = k' /\ present o v.
Proof.
  unfold given, present. destruct o as [s|]; cbn [fmt].
  - destruct (String.eqb_spec s ""); cbn [negb In]; split.
    + contradiction.
    + intros [_ [[= <-] H]]. contradiction.
    + intros [[= <- <-]|[]]. auto.
    + intros [<- [[= <-] _]]. now left.
  - cbn [In]. split; [contradiction | intros [_ [H _]]; discriminate].
Qed.

(** What [fetch_from_zoho] does once the token step has returned. *)
Lemma fetch_after_token (module_name : string)
    (record_id criteria fields : option string) (w : World) :
  fetch module_name record_id criteria fields w
  = match get_token w with
    | (Raise e, w1) => (Raise e, w1)
    | (Ok access_token, w1) =>
        let r := mkRequest GET (url module_name record_id criteria)
                   (ZohoOauthtoken access_token) (params criteria fields) in
        let response := server w1 (log w1) r in
        (if status_code response =? 200
         then match json response with
              | Some doc => Ok doc
              | None => Raise JSONDecodeError
              end
         else Raise (CrmRequestError module_name (text response)),
         record r w1)
    end.
Proof.
  unfold fetch_from_zoho, bind.
  destruct (get_zoho_access_token _ _ _ w) as [[access_token|e] w1];
    [|reflexivity].
  unfold send. cbn zeta.
  destruct (status_code _ =? 200); cbn [negb]; [|reflexivity].
  unfold response_json. now destruct (json _).
Qed.

(** C4, as the code has it.  An exception of the token step leaves
    [fetch_from_zoho] as it is, with no request to the CRM.  After a token
    the call raises the exception of line 99, which carries the module
    name and the body of the answer, exactly when the status is not 200,
    and returns the parsed document when the status is 200 and the body
    is JSON. *)
Theorem fetch_outcome (module_name : string)
    (record_id criteria fields : option string) (w : World) :
  (forall e w1, get_token w = (Raise e, w1) ->
     fetch module_name record_id criteria fields w = (Raise e, w1)) /\
  (forall access_token w1, get_token w = (Ok access_token, w1) ->
     let response :=
       server w1 (log w1)
         (mkRequest GET (url module_name record_id criteria)
            (ZohoOauthtoken access_token) (params criteria fields)) in
     (fst (fetch module_name record_id criteria fields w)
      = Raise (Exception ("Failed to fetch from Zoho " ++ module_name ++ ": "
                          ++ text response))
      <-> status_code response <> 200) /\
     (forall doc, status_code response = 200 -> json response = Some doc ->
        fst (fetch module_name record_id criteria fields w) = Ok doc)).
Proof.
  split.
  - intros e w1 Htok. rewrite fetch_after_token. now rewrite Htok.
  - intros access_token w1 Htok response.
    rewrite fetch_after_token. rewrite Htok. cbn zeta. fold response.
    cbn [fst]. destruct (Z.eqb_spec (status_code response) 200) as [H200|Hne].
    + split.
      * split; [|contradiction].
        destruct (json response); discriminate.
      * intros doc _ Hdoc. now rewrite Hdoc.
    + split.
      * split; [intros _; exact Hne | reflexivity].
      * intros doc H200. contradiction.
Qed.

(** C5. After the token step [fetch_from_zoho] sends one [GET].  Its URL
    is [{base}/{module}/{record_id}] when a record id is given, else
    [{base}/{module}/search] when criteria are given, else
    [{base}/{module}]; its parameters are [criteria] and [fields], each
    with the value passed, each there exactly when it is given, whatever
    the URL.  Given means a string that is not empty, which is what the
    tests of lines 82-93 ask. *)
Theorem fetch_request (module_name : string)
    (record_id criteria fields : option string)
    (w w1 : World) (access_token : Json) :
  get_token w = (Ok access_token, w1) ->
  exists r,
    log (snd (fetch module_name record_id criteria fields w))
    = (log w1 ++ [r])%list /\
    req_method r = GET /\
    (forall id, present record_id id ->
       req_url r = base_url ++ "/" ++ module_name ++ "/" ++ id) /\
    (forall c, (forall id, ~ present record_id id) -> present criteria c ->
       req_url r = base_url ++ "/" ++ module_name ++ "/search") /\
    ((forall id, ~ present record_id id) -> (forall c, ~ present criteria c) ->
       req_url r = base_url ++ "/" ++ module_name) /\
    (forall c, In ("criteria", c) (req_params r) <-> present criteria c) /\
    (forall f, In ("fields", f) (req_params r) <-> present fields f) /\
    (forall k v, In (k, v) (req_params r) -> k = "criteria" \/ k = "fields").
Proof.
  intros Htok.
  exists (mkRequest GET (url module_name record_id criteria)
            (ZohoOauthtoken access_token) (params criteria fields)).
  rewrite fetch_after_token, Htok. cbn zeta. world.
  cbn [req_method req_url req_params].
  split; [reflexivity|]. split; [reflexivity|].
  split; [|split; [|split; [|split; [|split]]]].
  - intros id Hid. unfold url.
    assert (Hg : given record_id = true) by (apply given_true; now exists id).
    now rewrite Hg, (given_fmt record_id id Hid).
  - intros c Hrid Hc. unfold url.
    apply given_false in Hrid. rewrite Hrid.
    assert (Hg : given criteria = true) by (apply given_true; now exists c).
    now rewrite Hg.
  - intros Hrid Hc. unfold url.
    apply given_false in Hrid. apply given_false in Hc.
    now rewrite Hrid, Hc.
  - intros c. unfold params. rewrite in_app_iff, !in_param.
    split; [intros [[_ H]|[H _]]; [exact H | discriminate H] | auto].
  - intros f. unfold params. rewrite in_app_iff, !in_param.
    split; [intros [[H _]|[_ H]]; [discriminate H | exact H] | auto].
  - intros k v. unfold params. rewrite in_app_iff, !in_param. tauto.
Qed.

End RecordClient.

(** C4, as stated, fails: the CRM answers [201] with a JSON body, a 2xx
    status, and [fetch_from_zoho] raises instead of returning the
    document. *)
Lemma fetch_2xx_counterexample :
  let doc := JDict [("data", JList [])] in
  let crm := mkResponse 201 "created" (Some doc) in
  let w := world_at (mkCache (JStr "T") (Some one_pm)) noon
             (two_servers (token_response []) crm) in
  200 <= status_code crm < 300 /\
  json crm = Some doc /\
  fst (fetch_from_zoho "r" "c" "s" "Modules" None None None w) <> Ok doc /\
  fst (fetch_from_zoho "r" "c" "s" "Modules" None None None w)
  = Raise (Exception "Failed to fetch from Zoho Modules: created").
Proof.
  intros doc crm w. repeat split.
  - vm_compute. discriminate.
  - vm_compute. discriminate.
Qed.

Lemma fetch_outcome_witness :
  let doc := JDict [("data", JList [])] in
  let w := world_at (mkCache (JStr "T") (Some one_pm)) noon
             (two_servers (token_response [])
                (mkResponse 200 "" (Some doc))) in
  fst (fetch_from_zoho "r" "c" "s" "Modules" None None None w) = Ok doc.
Proof.
  intros doc w.
  destruct (fetch_outcome "r" "c" "s" "Modules" None None None w) as [_ H].
  destruct (H (JStr "T") (tick w) eq_refl) as [_ Hok].
  apply Hok; reflexivity.
Defined.

Lemma fetch_request_witness :
  let w := world_at (mkCache (JStr "T") (Some one_pm)) noon
             (two_servers (token_response []) (token_response [])) in
  exists r,
    log (snd (fetch_from_zoho "r" "c" "s" "Modules" (Some "123") None
                (Some "id,Name") w)) = [r] /\
    req_url r = "https://www.zohoapis.com/crm/v2/Modules/123" /\
    ~ (exists c, In ("criteria", c) (req_params r)) /\
    In ("fields", "id,Name") (req_params r).
Proof.
  intros w.
  destruct (fetch_request "r" "c" "s" "Modules" (Some "123") None
              (Some "id,Name") w (tick w) (JStr "T") eq_refl)
    as (r & Hlog & _ & Hid & _ & _ & Hc & Hf & _).
  exists r. split; [exact Hlog|]. split; [|split].
  - apply Hid. split; [reflexivity | discriminate].
  - intros [c Hin]. apply Hc in Hin. destruct Hin as [Hin _]. discriminate Hin.
  - apply Hf. split; [reflexivity | discriminate].
Defined.

(** ** The endpoints *)

Section Endpoints.

Variables refresh_token client_id client_secret bearer : string.
Variable str_container : Json -> string.

Local Abbreviation fetch :=
  (fetch_from_zoho refresh_token client_id client_secret).
Local Abbreviation endpoint :=
  (get_medical_expert_from_zoho refresh_token client_id client_secret bearer
     str_container).

Lemma check_bearer_world (auth_header : option string) (w : World) :
  snd (check_bearer bearer auth_header w) = w.
Proof.
  unfold check_bearer.
  destruct (_ || _); [reflexivity|].
  destruct (split _ _) as [|x [|token l]]; try reflexivity.
  now destruct (negb _).
Qed.

(** C8. A request that passes the bearer gate and names an
    [aphra_number], and whose search returns a document with no [data]
    entry or with an empty [data] array, is answered with the error
    "Medical expert not found" and status 404: not with a 200 reply. *)
Theorem empty_search_not_found (request : HttpRequest) (aphra : string)
    (w w1 : World) (d : Dict) :
  fst (check_bearer bearer (authorization request) w) = Ok None ->
  present (aphra_number request) aphra ->
  fetch "Medical_Experts" None
    (Some ("(APHRA_Number:equals:" ++ aphra ++ ")"))
    (Some medical_expert_fields) w = (Ok (JDict d), w1) ->
  lookup "data" d = None \/ lookup "data" d = Some (JList []) ->
  endpoint request w
  = (Ok (Jsonify (JDict [("error", JStr "Medical expert not found")]), 404), w1)
  /\ forall body, fst (endpoint request w) <> Ok (body, 200).
Proof.
  intros Hgate Haphra Hfetch Hdata.
  enough (H : endpoint request w = (Ok not_found, w1)).
  { split; [exact H|]. intros body. rewrite H. discriminate. }
  unfold get_medical_expert_from_zoho.
  unfold bind at 1.
  pose proof (check_bearer_world (authorization request) w) as Hw.
  destruct (check_bearer bearer (authorization request) w) as [r w0].
  cbn [fst snd] in Hgate, Hw. subst r w0.
  assert (Hg : given (aphra_number request) = true).
  { unfold given. destruct Haphra as [-> Hne].
    now destruct (String.eqb_spec aphra ""). }
  rewrite Hg. cbn [negb].
  destruct Haphra as [Hsome _]. rewrite Hsome. cbn [fmt].
  unfold try_except, bind at 1. rewrite Hfetch.
  unfold bind, lift, get, get_default.
  destruct Hdata as [-> | ->]; reflexivity.
Qed.

End Endpoints.

Lemma empty_search_not_found_witness :
  let crm := mkResponse 200 "" (Some (JDict [("data", JList [])])) in
  let w := world_at (mkCache (JStr "T") (Some one_pm)) noon
             (two_servers (token_response []) crm) in
  let request := mkHttpRequest (Some "Bearer secret") (Some "MED0001") in
  fst (get_medical_expert_from_zoho "r" "c" "s" "secret" (fun _ => "")
         request w)
  = Ok (Jsonify (JDict [("error", JStr "Medical expert not found")]), 404).
Proof.
  intros crm w request.
  assert (Haphra : present (aphra_number request) "MED0001")
    by (split; [reflexivity | discriminate]).
  destruct (empty_search_not_found "r" "c" "s" "secret" (fun _ => "")
              request "MED0001" w
              (record (mkRequest GET
                         "https://www.zohoapis.com/crm/v2/Medical_Experts/search"
                         (ZohoOauthtoken (JStr "T"))
                         [("criteria", "(APHRA_Number:equals:MED0001)");
                          ("fields", medical_expert_fields)])
                 (tick w))
              [("data", JList [])]
              eq_refl Haphra eq_refl (or_intror eq_refl)) as [H _].
  now rewrite H.
Defined.

(** ** Strings and the bearer gate *)

Lemma prefix_nil (s : string) : String.prefix "" s = true.
Proof. now destruct s. Qed.

Lemma prefix_cons (a b : ascii) (s t : string) :
  String.prefix (String a s) (String b t)
  = if ascii_dec a b then String.prefix s t else false.
Proof. reflexivity. Qed.

Lemma prefix_append (s t : string) : String.prefix s (s ++ t) = true.
Proof.
  induction s as [|c s IH]; [apply prefix_nil|].
  cbn [append]. rewrite prefix_cons.
  now destruct (ascii_dec c c).
Qed.

Lemma prefix_split (s h : string) :
  String.prefix s h = true -> exists t, h = s ++ t.
Proof.
  revert h. induction s as [|c s IH]; intros h H.
  - now exists h.
  - destruct h as [|c' h]; [discriminate|].
    rewrite prefix_cons in H. destruct (ascii_dec c c') as [<-|]; [|discriminate].
    destruct (IH h H) as [t ->]. now exists t.
Qed.

(** A prefix of [u] is a prefix of [u ++ v], and when [s] is no longer
    than [u] nothing else is. *)
Lemma prefix_short (s u v : string) :
  (String.length s <= String.length u)%nat ->
  String.prefix s (u ++ v) = String.prefix s u.
Proof.
  revert u. induction s as [|c s IH]; intros u Hlen.
  - now rewrite !prefix_nil.
  - destruct u as [|c' u]; [cbn in Hlen; lia|].
    cbn [append]. rewrite !prefix_cons.
    destruct (ascii_dec c c'); [|reflexivity].
    apply IH. cbn in Hlen. lia.
Qed.

Lemma prefix_extend (s u v : string) :
  String.prefix s u = true -> String.prefix s (u ++ v) = true.
Proof.
  revert u. induction s as [|c s IH]; intros u H.
  - apply prefix_nil.
  - destruct u as [|c' u]; [discriminate|].
    cbn [append]. rewrite prefix_cons in *.
    destruct (ascii_dec c c'); [now apply IH | discriminate].
Qed.

Lemma append_nil_r (s : string) : s ++ "" = s.
Proof. induction s as [|c s IH]; cbn; congruence. Qed.

Lemma append_assoc (s t u : string) : (s ++ t) ++ u = s ++ t ++ u.
Proof. induction s as [|c s IH]; cbn; congruence. Qed.

Lemma length_append (s t : string) :
  String.length (s ++ t) = (String.length s + String.length t)%nat.
Proof. induction s as [|c s IH]; cbn; congruence. Qed.

Section Split.

Variable sep : string.

Lemma split_go_nonempty (skip : nat) (acc s : string) :
  split_go sep skip acc s <> [].
Proof.
  revert skip acc. induction s as [|c s IH]; intros skip acc; cbn [split_go].
  - discriminate.
  - destruct skip; [|apply IH].
    destruct (String.prefix sep (String c s)); [discriminate | apply IH].
Qed.

(** The characters of a separator just found are dropped. *)
Lemma split_go_drop (u acc t : string) :
  split_go sep (String.length u) acc (u ++ t) = split_go sep 0 acc t.
Proof.
  induction u as [|c u IH]; cbn [append String.length]; [reflexivity|].
  cbn [split_go]. rewrite IH. now destruct t.
Qed.

(** A string that begins with the separator: an empty first piece, then
    the pieces of the rest. *)
Lemma split_go_sep (acc t : string) :
  sep <> "" ->
  split_go sep 0 acc (sep ++ t) = acc :: split_go sep 0 "" t.
Proof.
  intros Hsep.
  pose proof (prefix_append sep t) as Hp.
  pose proof (split_go_drop (match sep with String _ u => u | _ => "" end)
                "" t) as Hdrop.
  destruct sep as [|c u]; [contradiction|].
  cbn [append] in *. cbn [split_go]. rewrite Hp. f_equal.
  cbn [String.length]. now rewrite Nat.sub_1_r.
Qed.

(** Without the separator in it a string is one piece. *)
Lemma split_go_whole (acc t : string) :
  contains sep t = false -> split_go sep 0 acc t = [acc ++ t].
Proof.
  revert acc. induction t as [|c t IH]; intros acc H.
  - cbn. now rewrite append_nil_r.
  - cbn [contains] in H. apply orb_false_iff in H. destruct H as [Hp Hc].
    cbn [split_go]. rewrite Hp. rewrite IH by exact Hc.
    now rewrite append_assoc.
Qed.

(** The first piece ends where the separator first occurs. *)
Lemma split_go_first (acc a b : string) :
  sep <> "" ->
  (forall a1 a2, a = a1 ++ a2 -> a2 <> "" ->
     String.prefix sep (a2 ++ sep ++ b) = false) ->
  split_go sep 0 acc (a ++ sep ++ b) = (acc ++ a) :: split_go sep 0 "" b.
Proof.
  intros Hsep. revert acc. induction a as [|c a IH]; intros acc Hfree.
  - cbn [append]. rewrite append_nil_r. now apply split_go_sep.
  - cbn [append]. cbn [split_go].
    assert (Hp : String.prefix sep (String c a ++ sep ++ b) = false)
      by (apply (Hfree "" (String c a)); [reflexivity | discriminate]).
    cbn [append] in Hp. rewrite Hp.
    rewrite IH.
    + now rewrite append_assoc.
    + intros a1 a2 Ha Hne. apply (Hfree (String c a1) a2); [|exact Hne].
      cbn. now rewrite Ha.
Qed.

(** The first piece never holds the separator. *)
Lemma split_go_head (acc t : string) :
  exists a rest l,
    split_go sep 0 acc t = (acc ++ a) :: l /\
    t = a ++ rest /\ contains sep a = false.
Proof.
  revert acc. induction t as [|c t IH]; intros acc.
  - exists "", "", []. cbn. now rewrite append_nil_r.
  - cbn [split_go]. destruct (String.prefix sep (String c t)) eqn:Hp.
    + exists "", (String c t), (split_go sep (String.length sep - 1) "" t).
      now rewrite append_nil_r.
    + destruct (IH (acc ++ String c "")) as (a & rest & l & Hs & Ht & Hc).
      exists (String c a), rest, l. rewrite Hs, append_assoc. cbn [append].
      split; [reflexivity|]. split; [now rewrite Ht|].
      cbn [contains]. rewrite Hc, orb_false_r.
      destruct (String.prefix sep (String c a)) eqn:Hpa; [|reflexivity].
      rewrite <- Hp, Ht.
      change (String c (a ++ rest)) with (String c a ++ rest).
      symmetry. now apply prefix_extend.
Qed.

End Split.

Lemma contains_suffix (sep x1 x2 : string) :
  contains sep (x1 ++ x2) = false -> x2 <> "" -> String.prefix sep x2 = false.
Proof.
  induction x1 as [|c x1 IH]; cbn [append]; intros H Hne.
  - destruct x2 as [|c x2]; [contradiction|].
    cbn [contains] in H. now apply orb_false_iff in H.
  - cbn [contains] in H. apply orb_false_iff in H. now apply IH.
Qed.

Lemma contains_prefix_part (sep a rest : string) :
  contains sep a = true -> contains sep (a ++ rest) = true.
Proof.
  induction a as [|c a IH]; [discriminate|].
  cbn [append contains]. intros H. apply orb_true_iff in H.
  apply orb_true_iff. destruct H as [H|H].
  - left. change (String c (a ++ rest)) with (String c a ++ rest).
    now apply prefix_extend.
  - right. now apply IH.
Qed.

Section Gate.

Variable bearer : string.

Local Abbreviation gate := (check_bearer bearer).
Local Abbreviation refusal :=
  (error "Missing or invalid Authorization header", 401).
Local Abbreviation invalid := (error "Invalid token", 401).

Lemma gate_refuses (auth_header : option string) (w : World) :
  auth_header = None \/
  (exists h, auth_header = Some h /\ startswith h "Bearer " = false) ->
  gate auth_header w = (Ok (Some refusal), w).
Proof.
  intros [-> | [h [-> Hp]]]; unfold check_bearer.
  - reflexivity.
  - cbn [fmt]. rewrite Hp. cbn [negb]. now rewrite orb_true_r.
Qed.

(** After the prefix, the gate compares the first piece of the rest. *)
Lemma gate_prefix (t : string) (w : World) :
  gate (Some ("Bearer " ++ t)) w
  = (Ok (if (hd "" (split t "Bearer ") =? bearer)%string
         then None else Some invalid), w).
Proof.
  unfold check_bearer. cbn [fmt].
  assert (Hg : given (Some ("Bearer " ++ t)) = true) by reflexivity.
  rewrite Hg. unfold startswith. rewrite prefix_append. cbn [negb orb].
  unfold split. rewrite split_go_sep by discriminate.
  pose proof (split_go_nonempty "Bearer " 0 "" t) as Hne.
  destruct (split_go "Bearer " 0 "" t) as [|token l]; [contradiction|].
  cbn [hd]. now destruct (token =? bearer)%string.
Qed.

Lemma gate_cases (auth_header : option string) (w : World) :
  gate auth_header w = (Ok (Some refusal), w) \/
  exists t, auth_header = Some ("Bearer " ++ t) /\
    gate auth_header w
    = (Ok (if (hd "" (split t "Bearer ") =? bearer)%string
           then None else Some invalid), w).
Proof.
  destruct auth_header as [h|]; [|left; now apply gate_refuses; left].
  destruct (startswith h "Bearer ") eqn:Hp.
  - right. apply prefix_split in Hp. destruct Hp as [t ->].
    exists t. split; [reflexivity | apply gate_prefix].
  - left. apply gate_refuses. right. now exists h.
Qed.

End Gate.

Lemma bind_ok {A B} (m : M A) (k : A -> M B) (w w' : World) (a : A) :
  m w = (Ok a, w') -> bind m k w = k a w'.
Proof. intros H. unfold bind. now rewrite H. Qed.

Lemma bind_raise {A B} (m : M A) (k : A -> M B) (w w' : World) (e : exn) :
  m w = (Raise e, w') -> bind m k w = (Raise e, w').
Proof. intros H. unfold bind. now rewrite H. Qed.

Section Refusals.

Variables refresh_token client_id client_secret bearer : string.
Variable str_container : Json -> string.
Variable db : Database.

Local Abbreviation gate := (check_bearer bearer).
Local Abbreviation zoho_endpoint :=
  (get_medical_expert_from_zoho refresh_token client_id client_secret bearer
     str_container).
Local Abbreviation modules_endpoint :=
  (list_zoho_modules refresh_token client_id client_secret bearer).
Local Abbreviation database_endpoint := (get_medical_expert bearer db).

(** A request the gate refuses gets the refusal from each endpoint, and
    nothing else happens. *)
Lemma endpoints_refused (request : HttpRequest) (reply : Reply) (w : World) :
  gate (authorization request) w = (Ok (Some reply), w) ->
  zoho_endpoint request w = (Ok reply, w) /\
  modules_endpoint request w = (Ok reply, w) /\
  database_endpoint request w = (Ok (reply, []), w).
Proof.
  intros H.
  unfold get_medical_expert_from_zoho, list_zoho_modules, get_medical_expert.
  repeat split; now rewrite (bind_ok _ _ _ _ _ H).
Qed.

(** X1. A request without an [Authorization] header, or with one that
    does not begin with [Bearer ] (the empty header included), is answered
    401 "Missing or invalid Authorization header" by each of the three
    endpoints; nothing is sent, the clock is not read, the cache and the
    database are not touched. *)
Theorem unauthorized_request_refused (request : HttpRequest) (w : World) :
  authorization request = None \/
  (exists h, authorization request = Some h /\ startswith h "Bearer " = false) ->
  let reply := (error "Missing or invalid Authorization header", 401) in
  zoho_endpoint request w = (Ok reply, w) /\
  modules_endpoint request w = (Ok reply, w) /\
  database_endpoint request w = (Ok (reply, []), w).
Proof.
  intros H reply. apply endpoints_refused. now apply gate_refuses.
Qed.

(** X2. For a header [Bearer t] whose [t] does not hold [Bearer ] again,
    the gate lets the request through exactly when [t] is the configured
    token; any other [t] is answered 401 "Invalid token" by each
    endpoint, with no effect. *)
Theorem bearer_token_checked (request : HttpRequest) (t : string) (w : World) :
  authorization request = Some ("Bearer " ++ t) ->
  contains "Bearer " t = false ->
  (gate (authorization request) w = (Ok None, w) <-> t = bearer) /\
  (t <> bearer ->
   let reply := (error "Invalid token", 401) in
   zoho_endpoint request w = (Ok reply, w) /\
   modules_endpoint request w = (Ok reply, w) /\
   database_endpoint request w = (Ok (reply, []), w)).
Proof.
  intros Hauth Hfree.
  assert (Hgate : gate (authorization request) w
                  = (Ok (if (t =? bearer)%string then None
                         else Some (error "Invalid token", 401)), w)).
  { rewrite Hauth, gate_prefix. unfold split.
    now rewrite split_go_whole by exact Hfree. }
  split.
  - rewrite Hgate. destruct (String.eqb_spec t bearer) as [->|Hne];
      split; intros H; try reflexivity; try discriminate; contradiction.
  - intros Hne reply. apply endpoints_refused. rewrite Hgate.
    now destruct (String.eqb_spec t bearer).
Qed.

(** X3. The gate never raises: for a header that begins with [Bearer ]
    the list [auth_header.split('Bearer ')] has a second element, so the
    subscript of line 110 cannot fail; and the gate changes nothing. *)
Theorem gate_never_raises (auth_header : option string) (w : World) :
  exists refused, gate auth_header w = (Ok refused, w).
Proof.
  destruct (gate_cases bearer auth_header w) as [H|[t [_ H]]];
    rewrite H; eauto.
Qed.

(** X4. What follows a second [Bearer ] in the header is ignored: when
    [Bearer ] first occurs in [a ++ "Bearer " ++ b] where it is written,
    the header [Bearer a] followed by [Bearer b] is treated as the header
    [Bearer a]; with the configured token for [a] it passes the gate
    whatever [b] is. *)
Theorem second_bearer_ignored (a b : string) (w : World) :
  contains "Bearer " (a ++ "Bearer") = false ->
  gate (Some ("Bearer " ++ a ++ "Bearer " ++ b)) w
  = gate (Some ("Bearer " ++ a)) w /\
  (a = bearer -> gate (Some ("Bearer " ++ a ++ "Bearer " ++ b)) w = (Ok None, w)).
Proof.
  intros Hfree.
  assert (Ha : contains "Bearer " a = false).
  { destruct (contains "Bearer " a) eqn:E; [|reflexivity].
    now rewrite (contains_prefix_part _ _ "Bearer" E) in Hfree. }
  assert (H1 : gate (Some ("Bearer " ++ a ++ "Bearer " ++ b)) w
               = (Ok (if (a =? bearer)%string then None
                      else Some (error "Invalid token", 401)), w)).
  { rewrite gate_prefix. unfold split.
    rewrite split_go_first; [reflexivity | discriminate |].
    intros a1 a2 Hsplit Hne.
    change ("Bearer " ++ b) with ("Bearer" ++ " " ++ b).
    rewrite <- append_assoc. rewrite prefix_short.
    - apply (contains_suffix _ a1).
      + now rewrite <- append_assoc, <- Hsplit.
      + destruct a2; [contradiction | discriminate].
    - rewrite length_append. destruct a2; [contradiction|]. cbn. lia. }
  assert (H2 : gate (Some ("Bearer " ++ a)) w
               = (Ok (if (a =? bearer)%string then None
                      else Some (error "Invalid token", 401)), w)).
  { rewrite gate_prefix. unfold split.
    now rewrite split_go_whole by exact Ha. }
  split; [now rewrite H1, H2|].
  intros ->. rewrite H1. now rewrite String.eqb_refl.
Qed.

(** X5. A configured token that holds [Bearer ] can never be presented:
    the token the gate reads out of a header has no [Bearer ] in it, so no
    header passes the gate. *)
Theorem token_with_bearer_never_accepted (auth_header : option string)
    (w : World) :
  contains "Bearer " bearer = true ->
  gate auth_header w <> (Ok None, w).
Proof.
  intros Hb.
  destruct (gate_cases bearer auth_header w) as [H|[t [_ H]]]; rewrite H;
    [discriminate|].
  unfold split.
  destruct (split_go_head "Bearer " "" t) as (a & rest & l & Hs & _ & Hc).
  rewrite Hs. cbn [hd append].
  destruct (String.eqb_spec a bearer) as [->|]; [congruence | discriminate].
Qed.

End Refusals.

Lemma unauthorized_request_refused_witness :
  let request := mkHttpRequest (Some "Basic dXNlcg==") (Some "MED0001") in
  let w := sample_world (token_response []) in
  let reply := (error "Missing or invalid Authorization header", 401) in
  get_medical_expert_from_zoho "r" "c" "s" "secret" (fun _ => "") request w
  = (Ok reply, w) /\
  list_zoho_modules "r" "c" "s" "secret" request w = (Ok reply, w) /\
  get_medical_expert "secret" sample_db request w = (Ok (reply, []), w).
Proof.
  intros request w reply.
  apply (unauthorized_request_refused "r" "c" "s" "secret" (fun _ => "")
           sample_db request w).
  right. exists "Basic dXNlcg==". split; reflexivity.
Defined.

Lemma bearer_token_checked_witness :
  let request := mkHttpRequest (Some "Bearer guess") (Some "MED0001") in
  let w := sample_world (token_response []) in
  get_medical_expert_from_zoho "r" "c" "s" "secret" (fun _ => "") request w
  = (Ok (error "Invalid token", 401), w).
Proof.
  intros request w.
  destruct (bearer_token_checked "r" "c" "s" "secret" (fun _ => "")
              sample_db request "guess" w eq_refl eq_refl) as [_ H].
  apply H. discriminate.
Defined.

Lemma second_bearer_ignored_witness :
  let w := sample_world (token_response []) in
  check_bearer "secret" (Some "Bearer secretBearer anything") w = (Ok None, w).
Proof.
  intros w.
  destruct (second_bearer_ignored "secret" "secret" "anything" w eq_refl)
    as [_ H].
  apply H. reflexivity.
Defined.

Lemma token_with_bearer_never_accepted_witness :
  let w := sample_world (token_response []) in
  check_bearer "my Bearer token" (Some "Bearer my Bearer token") w
  <> (Ok None, w).
Proof.
  intros w.
  apply (token_with_bearer_never_accepted "my Bearer token"
           (Some "Bearer my Bearer token") w).
  reflexivity.
Defined.

(** ** More on the token manager *)

Section TokenOutcomes.

Variables refresh_token client_id client_secret : string.

Local Abbreviation get_token :=
  (get_zoho_access_token refresh_token client_id client_secret).
Local Abbreviation refresh :=
  (token_request refresh_token client_id client_secret).

(** The refresh, step by step. *)
Lemma token_miss (w : World) :
  cache_hit (cache w) (clock w (clock_reads w)) = false ->
  get_token w
  = let t := clock w (clock_reads w) in
    let response := server w (log w) refresh in
    let w1 := record refresh (tick w) in
    if status_code response =? 200
    then match json response with
         | None => (Raise JSONDecodeError, w1)
         | Some data =>
             match get data "access_token" with
             | Raise e => (Raise e, w1)
             | Ok access_token =>
                 match get_default data "expires_in" (JInt 3600) with
                 | Raise e => (Raise e, w1)
                 | Ok expires_in =>
                     let w2 :=
                       store (mkCache access_token (expires_at (cache w))) w1 in
                     match minus_60 expires_in with
                     | Raise e => (Raise e, w2)
                     | Ok secs =>
                         match timedelta_seconds secs with
                         | Raise e => (Raise e, w2)
                         | Ok delta =>
                             match datetime_add t delta with
                             | Raise e => (Raise e, w2)
                             | Ok e =>
                                 (Ok access_token,
                                  store (mkCache access_token (Some e)) w1)
                             end
                         end
                     end
                 end
             end
         end
    else (Raise (AuthProviderError (text response)), w1).
Proof.
  intros Hmiss.
  unfold get_zoho_access_token, bind, now, get_cache, send, response_json.
  world. rewrite Hmiss. world. cbn zeta.
  destruct (status_code _ =? 200); cbn [negb]; [|reflexivity].
  destruct (json _) as [data|]; [|reflexivity].
  unfold ret at 1. unfold lift, set_cache.
  destruct (get data "access_token") as [access_token|]; [|reflexivity].
  destruct (get_default data "expires_in" (JInt 3600)) as [expires_in|];
    [|reflexivity].
  world.
  destruct (minus_60 expires_in) as [secs|]; [|reflexivity].
  destruct (timedelta_seconds secs) as [delta|]; [|reflexivity].
  destruct (datetime_add _ delta) as [e|]; reflexivity.
Qed.

(** X6. A refresh answered with a status other than 200, a 2xx status
    included, raises the exception of line 63, and that is the only case
    in which it is raised; the cache is then what it was. *)
Theorem refusal_iff_not_200 (w : World) :
  let t := clock w (clock_reads w) in
  let response := server w (log w) refresh in
  absent_or_expired (cache w) t ->
  (fst (get_token w)
   = Raise (Exception ("Failed to get Zoho access token: " ++ text response))
   <-> status_code response <> 200) /\
  (status_code response <> 200 -> cache (snd (get_token w)) = cache w).
Proof.
  intros t response Hmiss. apply cache_hit_false in Hmiss.
  rewrite (token_miss w Hmiss). cbn zeta. fold response.
  destruct (Z.eqb_spec (status_code response) 200) as [H200|Hne].
  - split; [|contradiction]. split; [|contradiction]. intros H. exfalso.
    destruct (json response) as [data|]; [|discriminate].
    destruct data as [ | | | | |d]; try discriminate.
    unfold get, get_default in H.
    set (ei := match lookup "expires_in" d with
               | Some x => x
               | None => JInt 3600
               end) in H.
    destruct (minus_60 ei) as [secs|ex] eqn:E1.
    + unfold timedelta_seconds, datetime_add in H.
      destruct (_ && _) in H; [|discriminate].
      destruct (_ && _) in H; discriminate.
    + destruct ei; cbn in E1; try discriminate; cbn [fst] in H; congruence.
  - split; [split; [intros _; exact Hne | reflexivity] | reflexivity].
Qed.

(** X7. A refresh answered 200 with a body that is not JSON raises at
    [response.json()], and one whose JSON is not an object raises at
    [data.get]; in both cases one request was sent and the cache is what
    it was. *)
Theorem refresh_with_bad_body (w : World) :
  let t := clock w (clock_reads w) in
  let response := server w (log w) refresh in
  absent_or_expired (cache w) t ->
  status_code response = 200 ->
  (json response = None ->
   get_token w = (Raise JSONDecodeError, record refresh (tick w))) /\
  (forall data, json response = Some data -> (forall d, data <> JDict d) ->
   get_token w = (Raise AttributeError, record refresh (tick w))).
Proof.
  intros t response Hmiss H200. apply cache_hit_false in Hmiss.
  rewrite (token_miss w Hmiss). cbn zeta. fold response.
  rewrite H200. cbn [Z.eqb Pos.eqb]. split.
  - now intros ->.
  - intros data -> Hdata. destruct data; try reflexivity.
    now elim (Hdata d).
Qed.

(** X8. When [expires_in] is there but is not a number, the subtraction
    of line 70 raises [TypeError] after line 69 has stored the new token:
    the cache then holds the new token with the expiry it had before. *)
Theorem token_stored_before_expiry (w : World) (d : Dict) (v : Json) :
  let t := clock w (clock_reads w) in
  let response := server w (log w) refresh in
  absent_or_expired (cache w) t ->
  status_code response = 200 ->
  json response = Some (JDict d) ->
  lookup "expires_in" d = Some v ->
  (forall n, v <> JInt n) -> (forall b, v <> JBool b) ->
  fst (get_token w) = Raise TypeError /\
  cache (snd (get_token w))
  = mkCache (field "access_token" d) (expires_at (cache w)).
Proof.
  intros t response Hmiss H200 Hjson Hv Hint Hbool.
  apply cache_hit_false in Hmiss.
  rewrite (token_miss w Hmiss). cbn zeta. fold response.
  rewrite H200, Hjson. cbn [Z.eqb Pos.eqb].
  unfold get, get_default. rewrite Hv. fold (field "access_token" d).
  destruct v; try (now split).
  - now elim (Hbool b).
  - now elim (Hint n).
Qed.

End TokenOutcomes.

Section TokenSequences.

Variables refresh_token client_id client_secret : string.

Local Abbreviation get_token :=
  (get_zoho_access_token refresh_token client_id client_secret).
Local Abbreviation refresh :=
  (token_request refresh_token client_id client_secret).

(** X9. After a refresh that stored a token, the next call serves that
    token without a request as long as the clock reads a time before the
    stored expiry, and refreshes again once the clock has reached it; with
    an [expires_in] of 60 or less the expiry is not after the time of the
    refresh, so the next call refreshes again unless the clock went
    back. *)
Theorem token_reused_until_expiry (w : World) (d : Dict) (expires_in : Z) :
  let t := clock w (clock_reads w) in
  let t' := clock w (S (clock_reads w)) in
  let response := server w (log w) refresh in
  let expiry := t + (expires_in - 60) * 1000000 in
  let w1 := snd (get_token w) in
  absent_or_expired (cache w) t ->
  status_code response = 200 ->
  json response = Some (JDict d) ->
  truthy (field "access_token" d) = true ->
  lookup "expires_in" d = Some (JInt expires_in) \/
  lookup "expires_in" d = None /\ expires_in = 3600 ->
  0 <= t < datetime_end ->
  0 <= expiry < datetime_end ->
  (t' < expiry -> get_token w1 = (Ok (field "access_token" d), tick w1)) /\
  (expiry <= t' -> log (snd (get_token w1)) = (log w1 ++ [refresh])%list) /\
  (expires_in <= 60 -> t <= t' ->
   log (snd (get_token w1)) = (log w1 ++ [refresh])%list).
Proof.
  intros t t' response expiry w1 Hmiss H200 Hjson Htok Hexp Ht He.
  apply cache_hit_false in Hmiss.
  assert (Hw1 : w1 = store (mkCache (field "access_token" d) (Some expiry))
                       (record refresh (tick w))).
  { unfold w1. now rewrite (token_granted _ _ _ w d expires_in). }
  assert (Hlate : expiry <= t' ->
                  log (snd (get_token w1)) = (log w1 ++ [refresh])%list).
  { intros Hle. apply token_miss_log. rewrite Hw1. world.
    unfold cache_hit. cbn [token expires_at]. fold t'.
    apply Z.ltb_ge in Hle. rewrite Hle. apply andb_false_r. }
  split; [|split].
  - intros Hlt. rewrite token_hit.
    + now rewrite Hw1.
    + rewrite Hw1. world. unfold cache_hit. cbn [token expires_at].
      fold t'. rewrite Htok. now apply Z.ltb_lt.
  - exact Hlate.
  - intros Hshort Hmono. apply Hlate. unfold expiry. lia.
Qed.

(** X10. Whatever the outcome, a call reads the clock once and sends at
    most one request, the refresh of lines 52-60; the clock and the
    server are left as they were. *)
Theorem token_call_footprint (w : World) :
  exists (c : Cache) (sent : list Request),
    snd (get_token w)
    = mkWorld c (clock w) (S (clock_reads w)) (server w) (log w ++ sent)%list /\
    (sent = [] \/ sent = [refresh]).
Proof.
  destruct (cache_hit (cache w) (clock w (clock_reads w))) eqn:Hhit.
  - rewrite (token_hit _ _ _ w Hhit). exists (cache w), []. world.
    split; [|now left]. unfold tick. now rewrite app_nil_r.
  - rewrite (token_miss _ _ _ w Hhit). cbn zeta.
    destruct (_ =? 200);
      [|exists (cache w), [refresh]; split; [reflexivity | now right]].
    destruct (json _) as [data|];
      [|exists (cache w), [refresh]; split; [reflexivity | now right]].
    destruct (get data "access_token") as [tok|];
      [|exists (cache w), [refresh]; split; [reflexivity | now right]].
    destruct (get_default data _ _) as [ei|];
      [|exists (cache w), [refresh]; split; [reflexivity | now right]].
    destruct (minus_60 ei) as [secs|];
      [|exists (mkCache tok (expires_at (cache w))), [refresh];
        split; [reflexivity | now right]].
    destruct (timedelta_seconds secs) as [delta|];
      [|exists (mkCache tok (expires_at (cache w))), [refresh];
        split; [reflexivity | now right]].
    destruct (datetime_add _ delta) as [e|];
      [exists (mkCache tok (Some e)), [refresh]
      |exists (mkCache tok (expires_at (cache w))), [refresh]];
      (split; [reflexivity | now right]).
Qed.

(** X11. Whenever a call returns a token, that token is the one the
    cache holds after the call, and the cache has an expiry for it. *)
Theorem returned_token_is_cached (w : World) (access_token : Json) :
  fst (get_token w) = Ok access_token ->
  token (cache (snd (get_token w))) = access_token /\
  exists e, expires_at (cache (snd (get_token w))) = Some e.
Proof.
  destruct (cache_hit (cache w) (clock w (clock_reads w))) eqn:Hhit.
  - rewrite (token_hit _ _ _ w Hhit). world. intros [= <-].
    split; [reflexivity|]. unfold cache_hit in Hhit.
    destruct (expires_at (cache w)) as [e|]; [now exists e|].
    now rewrite andb_false_r in Hhit.
  - rewrite (token_miss _ _ _ w Hhit). cbn zeta.
    destruct (_ =? 200); [|discriminate].
    destruct (json _) as [data|]; [|discriminate].
    destruct (get data "access_token") as [tok|]; [|discriminate].
    destruct (get_default data _ _) as [ei|]; [|discriminate].
    destruct (minus_60 ei) as [secs|]; [|discriminate].
    destruct (timedelta_seconds secs) as [delta|]; [|discriminate].
    destruct (datetime_add _ delta) as [e|]; [|discriminate].
    world. intros [= <-]. split; [reflexivity | now exists e].
Qed.

End TokenSequences.

(** ** More on the record client *)

Section FetchSequences.

Variables refresh_token client_id client_secret : string.

Local Abbreviation get_token :=
  (get_zoho_access_token refresh_token client_id client_secret).
Local Abbreviation refresh :=
  (token_request refresh_token client_id client_secret).
Local Abbreviation fetch :=
  (fetch_from_zoho refresh_token client_id client_secret).

(** X12. With a token in the cache that has not expired, a fetch sends
    one request and no more: the [GET], with the cached token in its
    [Authorization] header; the cache is left as it is. *)
Theorem fetch_with_cached_token (module_name : string)
    (record_id criteria fields : option string) (w : World) (e : Z) :
  truthy (token (cache w)) = true ->
  expires_at (cache w) = Some e ->
  clock w (clock_reads w) < e ->
  log (snd (fetch module_name record_id criteria fields w))
  = (log w ++ [mkRequest GET (url module_name record_id criteria)
                 (ZohoOauthtoken (token (cache w)))
                 (params criteria fields)])%list /\
  cache (snd (fetch module_name record_id criteria fields w)) = cache w.
Proof.
  intros Htok Hexp Hlt.
  rewrite fetch_after_token, token_hit.
  - cbn zeta. now world.
  - unfold cache_hit. rewrite Htok, Hexp. now apply Z.ltb_lt.
Qed.

(** X13. When the token endpoint answers 200 without [access_token],
    the fetch goes on all the same: after the refresh it sends the [GET]
    with [None] formatted into the [Authorization] header. *)
Theorem fetch_without_access_token (module_name : string)
    (record_id criteria fields : option string) (w : World) (d : Dict)
    (expires_in : Z) :
  let t := clock w (clock_reads w) in
  let response := server w (log w) refresh in
  absent_or_expired (cache w) t ->
  status_code response = 200 ->
  json response = Some (JDict d) ->
  lookup "access_token" d = None ->
  lookup "expires_in" d = Some (JInt expires_in) \/
  lookup "expires_in" d = None /\ expires_in = 3600 ->
  0 <= t < datetime_end ->
  0 <= t + (expires_in - 60) * 1000000 < datetime_end ->
  log (snd (fetch module_name record_id criteria fields w))
  = (log w ++ [refresh;
               mkRequest GET (url module_name record_id criteria)
                 (ZohoOauthtoken JNull) (params criteria fields)])%list.
Proof.
  intros t response Hmiss H200 Hjson Htok Hexp Ht He.
  apply cache_hit_false in Hmiss.
  rewrite fetch_after_token.
  rewrite (token_granted _ _ _ w d expires_in); auto.
  unfold field. rewrite Htok. cbn zeta. world.
  now rewrite <- app_assoc.
Qed.

End FetchSequences.

(** ** More on the Zoho endpoints *)

Lemma module_list_rows (doc : Dict) (ms : list Dict) :
  lookup "modules" doc = Some (JList (map JDict ms)) ->
  module_list (JDict doc) = Ok (map projection ms).
Proof.
  intros Hdoc. unfold module_list. cbn [get_default rbind]. rewrite Hdoc.
  cbn [py_iter rbind].
  rewrite (for_append_map module_entry
             (fun x => match x with JDict m => projection m | _ => x end)).
  - cbn [app]. f_equal. now rewrite map_map.
  - intros x Hin. apply in_map_iff in Hin. destruct Hin as [m [<- _]].
    apply module_entry_projection.
Qed.

Lemma cleaned_sectors_stripped (data : list Dict) :
  Forall (fun r => NoDup (keys r)) data ->
  cleaned_sectors (JList (map JDict data))
  = Ok (map (fun r => JDict (stripped r)) data).
Proof.
  intros Hdata. unfold cleaned_sectors. cbn [py_iter rbind].
  rewrite (for_append_map cleaned_sector
             (fun x => match x with
                       | JDict r => JDict (stripped r)
                       | _ => x
                       end)).
  - cbn [app]. f_equal. now rewrite map_map.
  - intros x Hin. apply in_map_iff in Hin. destruct Hin as [r [<- Hin]].
    apply cleaned_sector_stripped.
    rewrite Forall_forall in Hdata. now apply Hdata.
Qed.

Section ZohoEndpoints.

Variables refresh_token client_id client_secret bearer : string.
Variable str_container : Json -> string.

Local Abbreviation get_token :=
  (get_zoho_access_token refresh_token client_id client_secret).
Local Abbreviation fetch :=
  (fetch_from_zoho refresh_token client_id client_secret).
Local Abbreviation gate := (check_bearer bearer).
Local Abbreviation zoho_endpoint :=
  (get_medical_expert_from_zoho refresh_token client_id client_secret bearer
     str_container).
Local Abbreviation modules_endpoint :=
  (list_zoho_modules refresh_token client_id client_secret bearer).

Lemma gate_passed (auth_header : option string) (w : World) :
  fst (gate auth_header w) = Ok None -> gate auth_header w = (Ok None, w).
Proof.
  intros H. pose proof (check_bearer_world bearer auth_header w) as Hw.
  destruct (gate auth_header w) as [r w0]. cbn [fst snd] in *. congruence.
Qed.

Lemma present_given (o : option string) (s : string) :
  present o s -> given o = true /\ fmt o = s.
Proof.
  intros [-> Hne]. split; [|reflexivity].
  unfold given. now destruct (String.eqb_spec s "").
Qed.

(** The endpoint once the gate and the parameter test are passed. *)
Lemma zoho_endpoint_try (request : HttpRequest) (aphra : string) (w : World) :
  fst (gate (authorization request) w) = Ok None ->
  present (aphra_number request) aphra ->
  exists body : M Reply,
    zoho_endpoint request w
    = try_except body
        (fun e => ret (JsonifyError "Zoho API error: " e, 500)) w /\
    body
    = (medical_expert_response <-
         fetch "Medical_Experts" None
           (Some ("(APHRA_Number:equals:" ++ aphra ++ ")"))
           (Some medical_expert_fields) ;;
       data <- lift (get medical_expert_response "data") ;;
       empty <-
         (if negb (truthy data) then ret true
          else
            data <- lift (py_getitem_key medical_expert_response "data") ;;
            n <- lift (py_len data) ;;
            ret (n =? 0)) ;;
       if (empty : bool) then ret not_found
       else
         data <- lift (py_getitem_key medical_expert_response "data") ;;
         medical_expert <- lift (py_getitem_0 data) ;;
         medical_expert_id <- lift (get medical_expert "id") ;;
         sectors_response <-
           fetch "Sectors_and_Schemes" None
             (Some ("(Medical_Expert:equals:"
                    ++ py_str str_container medical_expert_id ++ ")")) None ;;
         sectors_and_schemes <-
           lift (get_default sectors_response "data" (JList [])) ;;
         cleaned <- lift (cleaned_sectors sectors_and_schemes) ;;
         v1 <- lift (get medical_expert "APHRA_Number") ;;
         v2 <- lift (get medical_expert "Medical_Expert_First_Name") ;;
         v3 <- lift (get medical_expert "Last_Name") ;;
         v4 <- lift (get medical_expert "Doctor_ID") ;;
         v5 <- lift (get medical_expert "Vinici_User_Name") ;;
         v6 <- lift (get medical_expert "id") ;;
         ret (Jsonify (JDict [("APHRA_Number", v1);
                              ("Medical_Expert_First_Name", v2);
                              ("Last_Name", v3);
                              ("Doctor_ID", v4);
                              ("Vinici_User_Name", v5);
                              ("id", v6);
                              ("Sectors_and_Schemes", JList cleaned)]),
              200)).
Proof.
  intros Hgate Haphra. eexists. split; [|reflexivity].
  unfold get_medical_expert_from_zoho.
  rewrite (bind_ok _ _ _ _ _ (gate_passed _ _ Hgate)).
  destruct (present_given _ _ Haphra) as [Hg Hf].
  now rewrite Hg, Hf.
Qed.

(** X14. The reply for an expert that is found: when the search
    returns a [data] array whose first record is an object, and the
    search of its sectors returns objects (or no [data] entry, taken as no
    sectors), the reply is 200 with the six fields of that first record,
    [None] for the missing ones, and the sectors stripped of their dollar
    keys, in order.  Further records of the first search are ignored. *)
Theorem zoho_endpoint_success (request : HttpRequest) (aphra : string)
    (w w1 w2 : World) (d1 d2 expert : Dict) (others : list Json)
    (sectors : list Dict) :
  fst (gate (authorization request) w) = Ok None ->
  present (aphra_number request) aphra ->
  fetch "Medical_Experts" None
    (Some ("(APHRA_Number:equals:" ++ aphra ++ ")"))
    (Some medical_expert_fields) w = (Ok (JDict d1), w1) ->
  lookup "data" d1 = Some (JList (JDict expert :: others)) ->
  fetch "Sectors_and_Schemes" None
    (Some ("(Medical_Expert:equals:"
           ++ py_str str_container (field "id" expert) ++ ")"))
    None w1 = (Ok (JDict d2), w2) ->
  lookup "data" d2 = Some (JList (map JDict sectors)) \/
  lookup "data" d2 = None /\ sectors = [] ->
  Forall (fun r => NoDup (keys r)) sectors ->
  zoho_endpoint request w
  = (Ok (Jsonify
           (JDict [("APHRA_Number", field "APHRA_Number" expert);
                   ("Medical_Expert_First_Name",
                    field "Medical_Expert_First_Name" expert);
                   ("Last_Name", field "Last_Name" expert);
                   ("Doctor_ID", field "Doctor_ID" expert);
                   ("Vinici_User_Name", field "Vinici_User_Name" expert);
                   ("id", field "id" expert);
                   ("Sectors_and_Schemes",
                    JList (map (fun r => JDict (stripped r)) sectors))]),
         200), w2).
Proof.
  intros Hgate Haphra Hfetch1 Hdata1 Hfetch2 Hdata2 Hsectors.
  destruct (zoho_endpoint_try request aphra w Hgate Haphra) as (body & -> & ->).
  unfold try_except.
  rewrite (bind_ok _ _ _ _ _ Hfetch1).
  unfold get, get_default, py_getitem_key, lift.
  unfold bind at 1. rewrite Hdata1.
  unfold bind at 1. cbn [truthy negb].
  unfold bind at 1. unfold bind at 1. cbn [py_len].
  unfold bind at 1. unfold ret at 1.
  replace (Z.of_nat (List.length (JDict expert :: others)) =? 0) with false
    by (symmetry; apply Z.eqb_neq; cbn [List.length]; lia).
  unfold bind at 1. unfold bind at 1. cbn [py_getitem_0].
  unfold bind at 1. fold (field "id" expert).
  rewrite Hfetch2.
  assert (Hclean : cleaned_sectors
                     (match lookup "data" d2 with
                      | Some x => x
                      | None => JList []
                      end)
                   = Ok (map (fun r => JDict (stripped r)) sectors)).
  { destruct Hdata2 as [-> | [-> ->]]; [|reflexivity].
    destruct sectors as [|r0 sectors0]; [reflexivity|].
    inversion Hsectors; subst.
    now apply (cleaned_sectors_stripped (r0 :: sectors0)). }
  unfold bind. cbn beta iota. rewrite Hclean.
  reflexivity.
Qed.

(** X15. No partial result: once the gate and the parameter test are
    passed, an exception of the first fetch, or of the second after an
    expert was found, ends the request with status 500 and the body
    [{'error': 'Zoho API error: ' + str(e)}]. *)
Theorem zoho_endpoint_upstream_error (request : HttpRequest) (aphra : string)
    (w : World) :
  fst (gate (authorization request) w) = Ok None ->
  present (aphra_number request) aphra ->
  (forall e w1,
     fetch "Medical_Experts" None
       (Some ("(APHRA_Number:equals:" ++ aphra ++ ")"))
       (Some medical_expert_fields) w = (Raise e, w1) ->
     zoho_endpoint request w
     = (Ok (JsonifyError "Zoho API error: " e, 500), w1)) /\
  (forall d1 expert others e w1 w2,
     fetch "Medical_Experts" None
       (Some ("(APHRA_Number:equals:" ++ aphra ++ ")"))
       (Some medical_expert_fields) w = (Ok (JDict d1), w1) ->
     lookup "data" d1 = Some (JList (JDict expert :: others)) ->
     fetch "Sectors_and_Schemes" None
       (Some ("(Medical_Expert:equals:"
              ++ py_str str_container (field "id" expert) ++ ")"))
       None w1 = (Raise e, w2) ->
     zoho_endpoint request w
     = (Ok (JsonifyError "Zoho API error: " e, 500), w2)).
Proof.
  intros Hgate Haphra.
  destruct (zoho_endpoint_try request aphra w Hgate Haphra) as (body & -> & ->).
  unfold try_except. split.
  - intros e w1 Hfetch1. now rewrite (bind_raise _ _ _ _ _ Hfetch1).
  - intros d1 expert others e w1 w2 Hfetch1 Hdata1 Hfetch2.
    rewrite (bind_ok _ _ _ _ _ Hfetch1).
    unfold get, get_default, py_getitem_key, lift.
    unfold bind at 1. rewrite Hdata1.
    unfold bind at 1. cbn [truthy negb].
    unfold bind at 1. unfold bind at 1. cbn [py_len].
    unfold bind at 1. unfold ret at 1.
    replace (Z.of_nat (List.length (JDict expert :: others)) =? 0) with false
      by (symmetry; apply Z.eqb_neq; cbn [List.length]; lia).
    unfold bind at 1. unfold bind at 1. cbn [py_getitem_0].
    unfold bind at 1. fold (field "id" expert).
    now rewrite Hfetch2.
Qed.

(** X16. The Zoho endpoint never raises, and its status is one of 200,
    400, 401, 404 and 500. *)
Theorem zoho_endpoint_replies (request : HttpRequest) (w : World) :
  exists body status w',
    zoho_endpoint request w = (Ok (body, status), w') /\
    In status [200; 400; 401; 404; 500].
Proof.
  unfold get_medical_expert_from_zoho.
  destruct (gate_cases bearer (authorization request) w) as [H|[t [_ H]]];
    rewrite (bind_ok _ _ _ _ _ H).
  { do 3 eexists. split; [reflexivity | cbn; tauto]. }
  destruct (_ =? bearer)%string.
  2:{ do 3 eexists. split; [reflexivity | cbn; tauto]. }
  destruct (given (aphra_number request)); cbn [negb].
  2:{ do 3 eexists. split; [reflexivity | cbn; tauto]. }
  unfold try_except.
  match goal with
  | |- context [let (r, w') := ?m w in _] =>
      destruct (m w) as [[[body status]|e] w'] eqn:Hbody
  end.
  2:{ do 3 eexists. split; [reflexivity | cbn; tauto]. }
  exists body, status, w'. split; [reflexivity|].
  unfold bind, lift, ret, not_found in Hbody.
  repeat match type of Hbody with
         | context [let (_, _) := ?x in _] =>
             destruct x as [[?|?] ?] eqn:?; try discriminate
         | context [match ?x with _ => _ end] =>
             destruct x eqn:?; try discriminate
         end.
  all: injection Hbody as <- <- <-; cbn; tauto.
Qed.

(** X17. The module listing as the endpoint replies it: after the token
    step, a [GET] of the modules URL answered 200 with a JSON object gives
    the reply 200 with [modules] holding the projections, in order; a
    document without a [modules] entry gives the empty list. *)
Theorem modules_endpoint_success (request : HttpRequest) (w w1 : World)
    (access_token : Json) (doc : Dict) (ms : list Dict) :
  let r := mkRequest GET "https://www.zohoapis.com/crm/v2/settings/modules"
             (ZohoOauthtoken access_token) [] in
  let response := server w1 (log w1) r in
  fst (gate (authorization request) w) = Ok None ->
  get_token w = (Ok access_token, w1) ->
  status_code response = 200 ->
  json response = Some (JDict doc) ->
  lookup "modules" doc = Some (JList (map JDict ms)) \/
  lookup "modules" doc = None /\ ms = [] ->
  modules_endpoint request w
  = (Ok (Jsonify (JDict [("modules", JList (map projection ms))]), 200),
     record r w1).
Proof.
  intros r response Hgate Htok H200 Hjson Hmodules.
  unfold list_zoho_modules, modules_url.
  rewrite (bind_ok _ _ _ _ _ (gate_passed _ _ Hgate)).
  unfold try_except. rewrite (bind_ok _ _ _ _ _ Htok).
  unfold bind at 1. unfold send. fold r. fold response.
  rewrite H200. cbn [Z.eqb Pos.eqb negb].
  unfold bind at 1. unfold response_json. rewrite Hjson. unfold ret at 1.
  assert (Hlist : module_list (JDict doc) = Ok (map projection ms)).
  { destruct Hmodules as [H | [H ->]].
    - now apply module_list_rows.
    - unfold module_list. cbn [get_default rbind]. now rewrite H. }
  unfold bind, lift. now rewrite Hlist.
Qed.

(** X18. The modules endpoint fails with status 500 in two ways: an
    exception of the token step is caught, and nothing is sent to the CRM;
    an answer of the CRM with a status other than 200 gives the body
    [{'error': 'Failed to fetch modules: ' + response.text}]. *)
Theorem modules_endpoint_failures (request : HttpRequest) (w : World) :
  fst (gate (authorization request) w) = Ok None ->
  (forall e w1, get_token w = (Raise e, w1) ->
     modules_endpoint request w = (Ok (JsonifyError "Error: " e, 500), w1)) /\
  (forall access_token w1,
     let r := mkRequest GET "https://www.zohoapis.com/crm/v2/settings/modules"
                (ZohoOauthtoken access_token) [] in
     let response := server w1 (log w1) r in
     get_token w = (Ok access_token, w1) ->
     status_code response <> 200 ->
     modules_endpoint request w
     = (Ok (Jsonify (JDict [("error",
                             JStr ("Failed to fetch modules: "
                                   ++ text response))]), 500),
        record r w1)).
Proof.
  intros Hgate. unfold list_zoho_modules, modules_url.
  rewrite (bind_ok _ _ _ _ _ (gate_passed _ _ Hgate)).
  unfold try_except. split.
  - intros e w1 Htok. now rewrite (bind_raise _ _ _ _ _ Htok).
  - intros access_token w1 Htok Hne.
    rewrite (bind_ok _ _ _ _ _ Htok).
    unfold bind at 1. unfold send.
    apply Z.eqb_neq in Hne. now rewrite Hne.
Qed.

(** X19. The modules endpoint never raises, and its status is one of
    200, 401 and 500. *)
Theorem modules_endpoint_replies (request : HttpRequest) (w : World) :
  exists body status w',
    modules_endpoint request w = (Ok (body, status), w') /\
    In status [200; 401; 500].
Proof.
  unfold list_zoho_modules.
  destruct (gate_cases bearer (authorization request) w) as [H|[t [_ H]]];
    rewrite (bind_ok _ _ _ _ _ H).
  { do 3 eexists. split; [reflexivity | cbn; tauto]. }
  destruct (_ =? bearer)%string.
  2:{ do 3 eexists. split; [reflexivity | cbn; tauto]. }
  unfold try_except.
  match goal with
  | |- context [let (r, w') := ?m w in _] =>
      destruct (m w) as [[[body status]|e] w'] eqn:Hbody
  end.
  2:{ do 3 eexists. split; [reflexivity | cbn; tauto]. }
  exists body, status, w'. split; [reflexivity|].
  unfold bind, lift, ret, send, response_json, raise in Hbody.
  repeat match type of Hbody with
         | context [let (_, _) := ?x in _] =>
             destruct x as [[?|?] ?] eqn:?; try discriminate
         | context [match ?x with _ => _ end] =>
             destruct x eqn:?; try discriminate
         | context [if ?x then _ else _] =>
             destruct x eqn:?; try discriminate
         end.
  all: injection Hbody as <- <- <-; cbn; tauto.
Qed.

End ZohoEndpoints.

(** ** Start of the module *)

Lemma given_present_fmt (o : option string) :
  given o = true -> present o (fmt o).
Proof.
  unfold given, present. destruct o as [s|]; [|discriminate].
  destruct (String.eqb_spec s ""); [discriminate|]. now split.
Qed.

Lemma startup_config (getenv : string -> option string) (c : Config) :
  startup getenv = Loaded c ->
  present (getenv "DATABASE_URL") (DATABASE_URL c) /\
  present (getenv "BEARER_TOKEN") (BEARER_TOKEN c) /\
  present (getenv "ZOHO_REFRESH_TOKEN") (ZOHO_REFRESH_TOKEN c) /\
  present (getenv "ZOHO_CLIENT_ID") (ZOHO_CLIENT_ID c) /\
  present (getenv "ZOHO_CLIENT_SECRET") (ZOHO_CLIENT_SECRET c).
Proof.
  unfold startup. cbn zeta.
  destruct (given (getenv "DATABASE_URL")) eqn:H1; [|discriminate].
  destruct (given (getenv "BEARER_TOKEN")) eqn:H2; [|discriminate].
  destruct (given (getenv "ZOHO_REFRESH_TOKEN")) eqn:H3; [|discriminate].
  destruct (given (getenv "ZOHO_CLIENT_ID")) eqn:H4; [|discriminate].
  destruct (given (getenv "ZOHO_CLIENT_SECRET")) eqn:H5; [|discriminate].
  cbn [negb orb]. intros [= <-]. cbn.
  repeat split; now apply given_present_fmt.
Qed.

(** X20. The module loads exactly when the five settings are all there
    and not empty, and then holds their values; otherwise it raises
    [RuntimeError] and no endpoint exists. *)
Theorem startup_loaded_iff (getenv : string -> option string) (c : Config) :
  startup getenv = Loaded c <->
  present (getenv "DATABASE_URL") (DATABASE_URL c) /\
  present (getenv "BEARER_TOKEN") (BEARER_TOKEN c) /\
  present (getenv "ZOHO_REFRESH_TOKEN") (ZOHO_REFRESH_TOKEN c) /\
  present (getenv "ZOHO_CLIENT_ID") (ZOHO_CLIENT_ID c) /\
  present (getenv "ZOHO_CLIENT_SECRET") (ZOHO_CLIENT_SECRET c).
Proof.
  split; [apply startup_config|].
  unfold startup. cbn zeta.
  intros (H1 & H2 & H3 & H4 & H5).
  apply present_given in H1, H2, H3, H4, H5.
  destruct H1 as [-> ->], H2 as [-> ->], H3 as [-> ->], H4 as [-> ->],
           H5 as [-> ->].
  cbn [negb orb]. now destruct c.
Qed.

(** X21. With a configuration that loaded, the header [Bearer ] with
    nothing after it is refused: the configured token is not empty. *)
Theorem empty_bearer_refused (getenv : string -> option string) (c : Config)
    (w : World) :
  startup getenv = Loaded c ->
  check_bearer (BEARER_TOKEN c) (Some "Bearer ") w
  = (Ok (Some (error "Invalid token", 401)), w).
Proof.
  intros Hload. apply startup_config in Hload.
  destruct Hload as (_ & [_ Hne] & _).
  change "Bearer " with ("Bearer " ++ "") at 1. rewrite gate_prefix.
  cbn [split split_go hd].
  destruct (String.eqb_spec "" (BEARER_TOKEN c)) as [E|]; [|reflexivity].
  now elim Hne.
Qed.

(** ** The database endpoint *)

Section DatabaseReplies.

Variables refresh_token client_id client_secret bearer : string.
Variable str_container : Json -> string.
Variable db : Database.

Local Abbreviation gate := (check_bearer bearer).
Local Abbreviation zoho_endpoint :=
  (get_medical_expert_from_zoho refresh_token client_id client_secret bearer
     str_container).
Local Abbreviation database_endpoint := (get_medical_expert bearer db).
Local Abbreviation released :=
  [Connected; CursorOpened; CursorClosed; ConnectionClosed].

(** X22. A request that passes the gate without an [aphra_number], or
    with an empty one, is answered 400 by both expert endpoints; nothing
    is sent and the database is not opened. *)
Theorem missing_aphra_number (request : HttpRequest) (w : World) :
  fst (gate (authorization request) w) = Ok None ->
  aphra_number request = None \/ aphra_number request = Some "" ->
  let reply := (error "aphra_number parameter is required", 400) in
  zoho_endpoint request w = (Ok reply, w) /\
  database_endpoint request w = (Ok (reply, []), w).
Proof.
  intros Hgate Haphra reply.
  unfold get_medical_expert_from_zoho, get_medical_expert.
  rewrite !(bind_ok _ _ _ _ _ (gate_passed _ _ _ Hgate)).
  now destruct Haphra as [-> | ->].
Qed.

(** X23. The reply of the database endpoint for an expert that is
    found: status 200 and the columns of the expert's row followed by
    [Sectors_and_Schemes], which holds the rows of the second query as
    they are, in order; the cursor and the connection are closed. *)
Theorem database_endpoint_success (request : HttpRequest) (aphra : string)
    (w : World) (row : Dict) (id : Json) (rows : list Dict) :
  fst (gate (authorization request) w) = Ok None ->
  present (aphra_number request) aphra ->
  connect db = Fetched tt ->
  medical_experts_rec db aphra = Fetched (Some row) ->
  lookup "id" row = Some id ->
  ~ In "Sectors_and_Schemes" (keys row) ->
  sectors_and_schemes db id = Fetched rows ->
  Forall (fun r => wf (JDict r)) rows ->
  database_endpoint request w
  = (Ok (Jsonify (JDict (row ++ [("Sectors_and_Schemes",
                                  JList (map JDict rows))])%list),
         200, released), w).
Proof.
  intros Hgate Haphra Hconn Hrow Hid Hfresh Hrows Hwf.
  unfold get_medical_expert.
  rewrite (bind_ok _ _ _ _ _ (gate_passed _ _ _ Hgate)).
  destruct (present_given _ _ Haphra) as [-> ->]. cbn [negb].
  rewrite Hconn, Hrow.
  destruct row as [|kv row']; [discriminate|]. cbn [truthy negb].
  rewrite Hid, Hrows.
  rewrite dict_set_fresh by exact Hfresh.
  assert (Hfmt : formatted_sectors rows = map JDict rows).
  { unfold formatted_sectors.
    rewrite (fold_append_map (fun r => convert_arrays_to_list (JDict r))).
    cbn [app]. apply map_ext_in. intros r Hin. apply convert_wf.
    rewrite Forall_forall in Hwf. now apply Hwf. }
  now rewrite Hfmt.
Qed.

(** X24. When the first query finds no row the reply is 404 "Medical
    expert not found", the second query is not made, and the cursor and
    the connection are closed. *)
Theorem database_endpoint_not_found (request : HttpRequest) (aphra : string)
    (w : World) :
  fst (gate (authorization request) w) = Ok None ->
  present (aphra_number request) aphra ->
  connect db = Fetched tt ->
  medical_experts_rec db aphra = Fetched None ->
  database_endpoint request w
  = (Ok (error "Medical expert not found", 404, released), w).
Proof.
  intros Hgate Haphra Hconn Hrow.
  unfold get_medical_expert.
  rewrite (bind_ok _ _ _ _ _ (gate_passed _ _ _ Hgate)).
  destruct (present_given _ _ Haphra) as [-> ->]. cbn [negb].
  now rewrite Hconn, Hrow.
Qed.

(** X25. An error of the database is answered 500 with the body
    [{'error': 'Database error: ' + str(e)}]: at the connection, with
    nothing to close; at the first query; or at the second query, after
    an expert was found.  In the last two cases the cursor and the
    connection are closed. *)
Theorem database_endpoint_errors (request : HttpRequest) (aphra msg : string)
    (w : World) :
  fst (gate (authorization request) w) = Ok None ->
  present (aphra_number request) aphra ->
  let reply := error ("Database error: " ++ msg) in
  (connect db = DatabaseError msg ->
   database_endpoint request w = (Ok (reply, 500, []), w)) /\
  (connect db = Fetched tt ->
   medical_experts_rec db aphra = DatabaseError msg ->
   database_endpoint request w = (Ok (reply, 500, released), w)) /\
  (forall row kv id,
     connect db = Fetched tt ->
     medical_experts_rec db aphra = Fetched (Some (kv :: row)) ->
     lookup "id" (kv :: row) = Some id ->
     sectors_and_schemes db id = DatabaseError msg ->
     database_endpoint request w = (Ok (reply, 500, released), w)).
Proof.
  intros Hgate Haphra reply.
  unfold get_medical_expert.
  rewrite (bind_ok _ _ _ _ _ (gate_passed _ _ _ Hgate)).
  destruct (present_given _ _ Haphra) as [-> ->]. cbn [negb].
  split; [|split].
  - now intros ->.
  - now intros -> ->.
  - intros row kv id -> -> Hid Herr. cbn [truthy negb].
    now rewrite Hid, Herr.
Qed.

(** X26. The database endpoint never raises; its status is one of 200,
    400, 401, 404 and 500; it changes nothing of the token cache and sends
    nothing; and a connection that was opened is closed on every path. *)
Theorem database_endpoint_replies (request : HttpRequest) (w : World) :
  exists body status events,
    database_endpoint request w = (Ok (body, status, events), w) /\
    In status [200; 400; 401; 404; 500] /\
    (events = [] \/ events = released).
Proof.
  unfold get_medical_expert.
  destruct (gate_cases bearer (authorization request) w) as [H|[t [_ H]]];
    rewrite (bind_ok _ _ _ _ _ H).
  { do 3 eexists. split; [reflexivity | cbn; tauto]. }
  destruct (_ =? bearer)%string.
  2:{ do 3 eexists. split; [reflexivity | cbn; tauto]. }
  destruct (given (aphra_number request)); cbn [negb].
  2:{ do 3 eexists. split; [reflexivity | cbn; tauto]. }
  destruct (connect db).
  2:{ do 3 eexists. split; [reflexivity | cbn; tauto]. }
  destruct (medical_experts_rec db _) as [[row|]|].
  2,3: do 3 eexists; (split; [reflexivity | cbn; tauto]).
  destruct (negb (truthy (JDict row))).
  { do 3 eexists. split; [reflexivity | cbn; tauto]. }
  destruct (lookup "id" row) as [id|].
  2:{ do 3 eexists. split; [reflexivity | cbn; tauto]. }
  destruct (sectors_and_schemes db id);
    do 3 eexists; (split; [reflexivity | cbn; tauto]).
Qed.

End DatabaseReplies.

(** ** The extra properties at sample inputs *)

Ltac in_range := vm_compute; split; [discriminate | reflexivity].

Lemma refusal_iff_not_200_witness :
  let w := world_at empty_cache noon
             (two_servers (mkResponse 204 "" None) (token_response [])) in
  fst (get_zoho_access_token "r" "c" "s" w)
  = Raise (Exception "Failed to get Zoho access token: ") /\
  cache (snd (get_zoho_access_token "r" "c" "s" w)) = empty_cache.
Proof.
  intros w.
  destruct (refusal_iff_not_200 "r" "c" "s" w (or_introl eq_refl)) as [H1 H2].
  assert (Hne : status_code (server w (log w) (token_request "r" "c" "s"))
                <> 200) by discriminate.
  split; [now apply H1 | now apply H2].
Defined.

Lemma refresh_with_bad_body_witness :
  let w := world_at empty_cache noon
             (two_servers (mkResponse 200 "<html>" None) (token_response [])) in
  fst (get_zoho_access_token "r" "c" "s" w) = Raise JSONDecodeError.
Proof.
  intros w.
  destruct (refresh_with_bad_body "r" "c" "s" w (or_introl eq_refl) eq_refl)
    as [H _].
  now rewrite (H eq_refl).
Defined.

Lemma token_stored_before_expiry_witness :
  let body := [("access_token", JStr "new"); ("expires_in", JStr "3600")] in
  let w := world_at (mkCache (JStr "old") (Some noon)) one_pm
             (two_servers (token_response body) (token_response [])) in
  fst (get_zoho_access_token "r" "c" "s" w) = Raise TypeError /\
  cache (snd (get_zoho_access_token "r" "c" "s" w))
  = mkCache (JStr "new") (Some noon).
Proof.
  intros body w.
  assert (Hmiss : absent_or_expired (cache w) (clock w (clock_reads w))).
  { right. right. exists noon. split; [reflexivity | vm_compute; discriminate]. }
  apply (token_stored_before_expiry "r" "c" "s" w body (JStr "3600")
           Hmiss eq_refl eq_refl eq_refl); discriminate.
Defined.

Lemma token_reused_until_expiry_witness :
  let body := [("access_token", JStr "T"); ("expires_in", JInt 3600)] in
  let w := world_at empty_cache noon
             (two_servers (token_response body) (token_response [])) in
  let w1 := snd (get_zoho_access_token "r" "c" "s" w) in
  get_zoho_access_token "r" "c" "s" w1 = (Ok (JStr "T"), tick w1).
Proof.
  intros body w w1.
  assert (Ht : 0 <= clock w (clock_reads w) < datetime_end) by in_range.
  assert (He : 0 <= clock w (clock_reads w) + (3600 - 60) * 1000000
               < datetime_end) by in_range.
  destruct (token_reused_until_expiry "r" "c" "s" w body 3600
              (or_introl eq_refl) eq_refl eq_refl eq_refl
              (or_introl eq_refl) Ht He) as [H _].
  apply H. reflexivity.
Defined.

Lemma returned_token_is_cached_witness :
  let body := [("access_token", JStr "T"); ("expires_in", JInt 3600)] in
  let w := world_at empty_cache noon
             (two_servers (token_response body) (token_response [])) in
  token (cache (snd (get_zoho_access_token "r" "c" "s" w))) = JStr "T".
Proof.
  intros body w.
  now destruct (returned_token_is_cached "r" "c" "s" w (JStr "T") eq_refl).
Defined.

Lemma fetch_with_cached_token_witness :
  let w := sample_world (token_response []) in
  log (snd (fetch_from_zoho "r" "c" "s" "Leads" None None None w))
  = [mkRequest GET "https://www.zohoapis.com/crm/v2/Leads"
       (ZohoOauthtoken (JStr "T")) []].
Proof.
  intros w.
  now destruct (fetch_with_cached_token "r" "c" "s" "Leads" None None None
                  w one_pm eq_refl eq_refl eq_refl).
Defined.

Lemma fetch_without_access_token_witness :
  let w := world_at empty_cache noon
             (two_servers (token_response []) (token_response [])) in
  log (snd (fetch_from_zoho "r" "c" "s" "Leads" None None None w))
  = [token_request "r" "c" "s";
     mkRequest GET "https://www.zohoapis.com/crm/v2/Leads"
       (ZohoOauthtoken JNull) []].
Proof.
  intros w.
  assert (Ht : 0 <= clock w (clock_reads w) < datetime_end) by in_range.
  assert (He : 0 <= clock w (clock_reads w) + (3600 - 60) * 1000000
               < datetime_end) by in_range.
  apply (fetch_without_access_token "r" "c" "s" "Leads" None None None w
           [] 3600 (or_introl eq_refl) eq_refl eq_refl eq_refl
           (or_intror (conj eq_refl eq_refl)) Ht He).
Defined.

Lemma zoho_endpoint_success_witness :
  let w := world_at (mkCache (JStr "T") (Some one_pm)) noon sample_crm in
  fst (get_medical_expert_from_zoho "r" "c" "s" "secret" (fun _ => "")
         sample_request w)
  = Ok (Jsonify
          (JDict [("APHRA_Number", JStr "MED0001");
                  ("Medical_Expert_First_Name", JNull);
                  ("Last_Name", JStr "Byron");
                  ("Doctor_ID", JNull);
                  ("Vinici_User_Name", JNull);
                  ("id", JStr "4876");
                  ("Sectors_and_Schemes",
                   JList [JDict [("id", JStr "1"); ("Sector", JStr "CTP")];
                          JDict [("id", JStr "2"); ("Sector", JStr "WC")]])]),
        200).
Proof.
  intros w.
  set (r1 := mkRequest GET
               "https://www.zohoapis.com/crm/v2/Medical_Experts/search"
               (ZohoOauthtoken (JStr "T"))
               [("criteria", "(APHRA_Number:equals:MED0001)");
                ("fields", medical_expert_fields)]).
  set (r2 := mkRequest GET
               "https://www.zohoapis.com/crm/v2/Sectors_and_Schemes/search"
               (ZohoOauthtoken (JStr "T"))
               [("criteria", "(Medical_Expert:equals:4876)")]).
  set (w1 := record r1 (tick w)).
  set (w2 := record r2 (tick w1)).
  assert (Haphra : present (aphra_number sample_request) "MED0001")
    by (split; [reflexivity | discriminate]).
  assert (Hsectors : Forall (fun r => NoDup (keys r)) sample_sectors)
    by (repeat constructor; simpl; intuition discriminate).
  rewrite (zoho_endpoint_success "r" "c" "s" "secret" (fun _ => "")
             sample_request "MED0001" w w1 w2
             [("data", JList [JDict sample_record])]
             [("data", JList (map JDict sample_sectors))]
             sample_record [] sample_sectors
             eq_refl Haphra eq_refl eq_refl eq_refl
             (or_introl eq_refl) Hsectors).
  reflexivity.
Defined.

Lemma zoho_endpoint_upstream_error_witness :
  let w := world_at (mkCache (JStr "T") (Some one_pm)) noon failing_crm in
  fst (get_medical_expert_from_zoho "r" "c" "s" "secret" (fun _ => "")
         sample_request w)
  = Ok (JsonifyError "Zoho API error: "
          (Exception "Failed to fetch from Zoho Medical_Experts: unavailable"),
        500).
Proof.
  intros w.
  assert (Haphra : present (aphra_number sample_request) "MED0001")
    by (split; [reflexivity | discriminate]).
  destruct (zoho_endpoint_upstream_error "r" "c" "s" "secret" (fun _ => "")
              sample_request "MED0001" w eq_refl Haphra) as [H _].
  rewrite (H (Exception "Failed to fetch from Zoho Medical_Experts: unavailable")
             (record
                (mkRequest GET
                   "https://www.zohoapis.com/crm/v2/Medical_Experts/search"
                   (ZohoOauthtoken (JStr "T"))
                   [("criteria", "(APHRA_Number:equals:MED0001)");
                    ("fields", medical_expert_fields)])
                (tick w))
             eq_refl).
  reflexivity.
Defined.

Lemma modules_endpoint_success_witness :
  let w := world_at (mkCache (JStr "T") (Some one_pm)) noon sample_crm in
  fst (list_zoho_modules "r" "c" "s" "secret" sample_request w)
  = Ok (Jsonify
          (JDict [("modules",
                   JList [JDict [("api_name", JStr "Leads");
                                 ("module_name", JStr "Leads");
                                 ("plural_label", JStr "Leads");
                                 ("singular_label", JStr "Lead")];
                          JDict [("api_name", JStr "Medical_Experts");
                                 ("module_name", JNull);
                                 ("plural_label", JNull);
                                 ("singular_label", JNull)]])]),
        200).
Proof.
  intros w.
  rewrite (modules_endpoint_success "r" "c" "s" "secret" sample_request
             w (tick w) (JStr "T")
             [("modules", JList (map JDict sample_modules))] sample_modules
             eq_refl eq_refl eq_refl eq_refl (or_introl eq_refl)).
  reflexivity.
Defined.

Lemma modules_endpoint_failures_witness :
  let w := world_at (mkCache (JStr "T") (Some one_pm)) noon failing_crm in
  fst (list_zoho_modules "r" "c" "s" "secret" sample_request w)
  = Ok (Jsonify (JDict [("error",
                         JStr "Failed to fetch modules: unavailable")]), 500).
Proof.
  intros w.
  destruct (modules_endpoint_failures "r" "c" "s" "secret" sample_request w
              eq_refl) as [_ H].
  rewrite (H (JStr "T") (tick w) eq_refl); [reflexivity | discriminate].
Defined.

Lemma empty_bearer_refused_witness :
  let w := sample_world (token_response []) in
  startup sample_env
  = Loaded (mkConfig "postgres://db" "secret" "r" "c" "s") /\
  check_bearer "secret" (Some "Bearer ") w
  = (Ok (Some (error "Invalid token", 401)), w).
Proof.
  intros w. split; [reflexivity|].
  exact (empty_bearer_refused sample_env
           (mkConfig "postgres://db" "secret" "r" "c" "s") w eq_refl).
Defined.

Lemma missing_aphra_number_witness :
  let w := sample_world (token_response []) in
  let request := mkHttpRequest (Some "Bearer secret") (Some "") in
  get_medical_expert_from_zoho "r" "c" "s" "secret" (fun _ => "") request w
  = (Ok (error "aphra_number parameter is required", 400), w) /\
  get_medical_expert "secret" sample_db request w
  = (Ok (error "aphra_number parameter is required", 400, []), w).
Proof.
  intros w request.
  apply (missing_aphra_number "r" "c" "s" "secret" (fun _ => "") sample_db
           request w eq_refl).
  now right.
Defined.

Lemma database_endpoint_success_witness :
  let w := sample_world (token_response []) in
  get_medical_expert "secret" sample_db sample_request w
  = (Ok (Jsonify
           (JDict (sample_expert
                   ++ [("Sectors_and_Schemes", JList (map JDict sample_rows))])%list),
         200,
         [Connected; CursorOpened; CursorClosed; ConnectionClosed]), w).
Proof.
  intros w.
  assert (Haphra : present (aphra_number sample_request) "MED0001")
    by (split; [reflexivity | discriminate]).
  apply (database_endpoint_success "secret" sample_db sample_request
           "MED0001" w sample_expert (JInt 7) sample_rows
           eq_refl Haphra eq_refl eq_refl eq_refl).
  - simpl. intuition discriminate.
  - reflexivity.
  - repeat constructor; simpl; intuition discriminate.
Defined.

Lemma database_endpoint_not_found_witness :
  let w := sample_world (token_response []) in
  let request := mkHttpRequest (Some "Bearer secret") (Some "MED9999") in
  get_medical_expert "secret" sample_db request w
  = (Ok (error "Medical expert not found", 404,
         [Connected; CursorOpened; CursorClosed; ConnectionClosed]), w).
Proof.
  intros w request.
  assert (Haphra : present (aphra_number request) "MED9999")
    by (split; [reflexivity | discriminate]).
  exact (database_endpoint_not_found "secret" sample_db request "MED9999" w
           eq_refl Haphra eq_refl eq_refl).
Defined.

Lemma database_endpoint_errors_witness :
  let w := sample_world (token_response []) in
  let down := mkDatabase (DatabaseError "connection refused")
                (fun _ => Fetched None) (fun _ => Fetched []) in
  get_medical_expert "secret" down sample_request w
  = (Ok (error "Database error: connection refused", 500, []), w).
Proof.
  intros w down.
  assert (Haphra : present (aphra_number sample_request) "MED0001")
    by (split; [reflexivity | discriminate]).
  destruct (database_endpoint_errors "secret" down sample_request "MED0001"
              "connection refused" w eq_refl Haphra) as [H _].
  now apply H.
Defined.

(** ** Records that are not objects *)

Lemma for_append_raise {A B} (f : A -> result B) (pre post : list A) (x : A)
    (e : exn) :
  (forall y, In y pre -> exists b, f y = Ok b) ->
  f x = Raise e ->
  forall out, for_append f (pre ++ x :: post) out = Raise e.
Proof.
  intros Hpre Hx. induction pre as [|y pre IH]; intros out; cbn [app for_append].
  - now rewrite Hx.
  - destruct (Hpre y) as [b Hb]; [now left|]. rewrite Hb. cbn [rbind].
    apply IH. intros z Hz. apply Hpre. now right.
Qed.

Lemma cleaned_sector_not_object (x : Json) :
  (forall d, x <> JDict d) -> cleaned_sector x = Raise AttributeError.
Proof. intros H. destruct x; try reflexivity. now elim (H d). Qed.

Lemma module_entry_not_object (x : Json) :
  (forall d, x <> JDict d) -> module_entry x = Raise AttributeError.
Proof. intros H. destruct x; try reflexivity. now elim (H d). Qed.

Section BadRecords.

Variables refresh_token client_id client_secret bearer : string.
Variable str_container : Json -> string.

Local Abbreviation get_token :=
  (get_zoho_access_token refresh_token client_id client_secret).
Local Abbreviation fetch :=
  (fetch_from_zoho refresh_token client_id client_secret).
Local Abbreviation gate := (check_bearer bearer).
Local Abbreviation zoho_endpoint :=
  (get_medical_expert_from_zoho refresh_token client_id client_secret bearer
     str_container).
Local Abbreviation modules_endpoint :=
  (list_zoho_modules refresh_token client_id client_secret bearer).

(** The Zoho endpoint once both searches have returned. *)
Lemma zoho_endpoint_after_sectors (request : HttpRequest) (aphra : string)
    (w w1 w2 : World) (d1 expert : Dict) (others : list Json)
    (sectors_response : Json) :
  fst (gate (authorization request) w) = Ok None ->
  present (aphra_number request) aphra ->
  fetch "Medical_Experts" None
    (Some ("(APHRA_Number:equals:" ++ aphra ++ ")"))
    (Some medical_expert_fields) w = (Ok (JDict d1), w1) ->
  lookup "data" d1 = Some (JList (JDict expert :: others)) ->
  fetch "Sectors_and_Schemes" None
    (Some ("(Medical_Expert:equals:"
           ++ py_str str_container (field "id" expert) ++ ")"))
    None w1 = (Ok sectors_response, w2) ->
  zoho_endpoint request w
  = match rbind (get_default sectors_response "data" (JList []))
            cleaned_sectors with
    | Ok cleaned =>
        (Ok (Jsonify
               (JDict [("APHRA_Number", field "APHRA_Number" expert);
                       ("Medical_Expert_First_Name",
                        field "Medical_Expert_First_Name" expert);
                       ("Last_Name", field "Last_Name" expert);
                       ("Doctor_ID", field "Doctor_ID" expert);
                       ("Vinici_User_Name", field "Vinici_User_Name" expert);
                       ("id", field "id" expert);
                       ("Sectors_and_Schemes", JList cleaned)]),
             200), w2)
    | Raise e => (Ok (JsonifyError "Zoho API error: " e, 500), w2)
    end.
Proof.
  intros Hgate Haphra Hfetch1 Hdata1 Hfetch2.
  destruct (zoho_endpoint_try refresh_token client_id client_secret bearer
              str_container request aphra w Hgate Haphra) as (body & -> & ->).
  unfold try_except.
  rewrite (bind_ok _ _ _ _ _ Hfetch1).
  unfold get, get_default, py_getitem_key, lift.
  unfold bind at 1. rewrite Hdata1.
  unfold bind at 1. cbn [truthy negb].
  unfold bind at 1. unfold bind at 1. cbn [py_len].
  unfold bind at 1. unfold ret at 1.
  replace (Z.of_nat (List.length (JDict expert :: others)) =? 0) with false
    by (symmetry; apply Z.eqb_neq; cbn [List.length]; lia).
  unfold bind at 1. unfold bind at 1. cbn [py_getitem_0].
  unfold bind at 1. fold (field "id" expert).
  rewrite Hfetch2.
  unfold bind. cbn beta iota.
  destruct sectors_response; try reflexivity.
  cbn [rbind]. now destruct (cleaned_sectors _).
Qed.

(** The modules endpoint once the CRM has answered 200 with JSON. *)
Lemma modules_endpoint_after_json (request : HttpRequest) (w w1 : World)
    (access_token modules_data : Json) :
  let r := mkRequest GET modules_url (ZohoOauthtoken access_token) [] in
  fst (gate (authorization request) w) = Ok None ->
  get_token w = (Ok access_token, w1) ->
  status_code (server w1 (log w1) r) = 200 ->
  json (server w1 (log w1) r) = Some modules_data ->
  modules_endpoint request w
  = match module_list modules_data with
    | Ok ms => (Ok (Jsonify (JDict [("modules", JList ms)]), 200), record r w1)
    | Raise e => (Ok (JsonifyError "Error: " e, 500), record r w1)
    end.
Proof.
  intros r Hgate Htok H200 Hjson.
  unfold list_zoho_modules.
  rewrite (bind_ok _ _ _ _ _ (gate_passed _ _ _ Hgate)).
  unfold try_except. rewrite (bind_ok _ _ _ _ _ Htok).
  unfold bind at 1. unfold send. fold r.
  rewrite H200. cbn [Z.eqb Pos.eqb negb].
  unfold bind at 1. unfold response_json. rewrite Hjson. unfold ret at 1.
  unfold bind, lift. now destruct (module_list modules_data).
Qed.

(** X27. No partial list of sectors: when the second search returns a
    [data] that is [null], a boolean or a number, or an array one of whose
    records is not an object, or a document that is not an object, the
    reply is 500 and carries the exception, not the expert. *)
Theorem bad_sector_data (request : HttpRequest) (aphra : string)
    (w w1 w2 : World) (d1 expert : Dict) (others : list Json)
    (sectors_response : Json) :
  fst (gate (authorization request) w) = Ok None ->
  present (aphra_number request) aphra ->
  fetch "Medical_Experts" None
    (Some ("(APHRA_Number:equals:" ++ aphra ++ ")"))
    (Some medical_expert_fields) w = (Ok (JDict d1), w1) ->
  lookup "data" d1 = Some (JList (JDict expert :: others)) ->
  fetch "Sectors_and_Schemes" None
    (Some ("(Medical_Expert:equals:"
           ++ py_str str_container (field "id" expert) ++ ")"))
    None w1 = (Ok sectors_response, w2) ->
  ((forall d, sectors_response <> JDict d) ->
   zoho_endpoint request w
   = (Ok (JsonifyError "Zoho API error: " AttributeError, 500), w2)) /\
  (forall d v, sectors_response = JDict d -> lookup "data" d = Some v ->
     v = JNull \/ (exists b, v = JBool b) \/ (exists n, v = JInt n) ->
     zoho_endpoint request w
     = (Ok (JsonifyError "Zoho API error: " TypeError, 500), w2)) /\
  (forall d pre x post, sectors_response = JDict d ->
     lookup "data" d = Some (JList (map JDict pre ++ x :: post)) ->
     (forall r, x <> JDict r) ->
     zoho_endpoint request w
     = (Ok (JsonifyError "Zoho API error: " AttributeError, 500), w2)).
Proof.
  intros Hgate Haphra Hfetch1 Hdata1 Hfetch2.
  rewrite (zoho_endpoint_after_sectors request aphra w w1 w2 d1 expert others
             sectors_response Hgate Haphra Hfetch1 Hdata1 Hfetch2).
  split; [|split].
  - intros Hnot. destruct sectors_response; try reflexivity. now elim (Hnot d).
  - intros d v -> Hv Hkind. cbn [get_default rbind]. rewrite Hv.
    destruct Hkind as [-> | [[b ->] | [n ->]]]; reflexivity.
  - intros d pre x post -> Hv Hx. cbn [get_default rbind]. rewrite Hv.
    unfold cleaned_sectors. cbn [py_iter rbind].
    rewrite (for_append_raise cleaned_sector (map JDict pre) post x
               AttributeError); [reflexivity | | now apply cleaned_sector_not_object].
    intros y Hy. apply in_map_iff in Hy. destruct Hy as [r [<- _]].
    eexists. reflexivity.
Qed.

(** X28. The module listing fails as a whole: when the CRM answers 200
    with JSON that is not an object, or whose [modules] is [null], a
    boolean or a number, or an array one of whose entries is not an
    object, the reply is 500 and carries the exception. *)
Theorem bad_module_data (request : HttpRequest) (w w1 : World)
    (access_token modules_data : Json) :
  let r := mkRequest GET "https://www.zohoapis.com/crm/v2/settings/modules"
             (ZohoOauthtoken access_token) [] in
  fst (gate (authorization request) w) = Ok None ->
  get_token w = (Ok access_token, w1) ->
  status_code (server w1 (log w1) r) = 200 ->
  json (server w1 (log w1) r) = Some modules_data ->
  ((forall d, modules_data <> JDict d) ->
   modules_endpoint request w
   = (Ok (JsonifyError "Error: " AttributeError, 500), record r w1)) /\
  (forall d v, modules_data = JDict d -> lookup "modules" d = Some v ->
     v = JNull \/ (exists b, v = JBool b) \/ (exists n, v = JInt n) ->
     modules_endpoint request w
     = (Ok (JsonifyError "Error: " TypeError, 500), record r w1)) /\
  (forall d pre x post, modules_data = JDict d ->
     lookup "modules" d = Some (JList (map JDict pre ++ x :: post)) ->
     (forall m, x <> JDict m) ->
     modules_endpoint request w
     = (Ok (JsonifyError "Error: " AttributeError, 500), record r w1)).
Proof.
  intros r Hgate Htok H200 Hjson.
  rewrite (modules_endpoint_after_json request w w1 access_token modules_data
             Hgate Htok H200 Hjson).
  fold r. split; [|split].
  - intros Hnot. destruct modules_data; try reflexivity. now elim (Hnot d).
  - intros d v -> Hv Hkind. unfold module_list. cbn [get_default rbind].
    rewrite Hv. destruct Hkind as [-> | [[b ->] | [n ->]]]; reflexivity.
  - intros d pre x post -> Hv Hx. unfold module_list. cbn [get_default rbind].
    rewrite Hv. cbn [py_iter rbind].
    rewrite (for_append_raise module_entry (map JDict pre) post x
               AttributeError); [reflexivity | | now apply module_entry_not_object].
    intros y Hy. apply in_map_iff in Hy. destruct Hy as [m [<- _]].
    eexists. reflexivity.
Qed.

End BadRecords.

Lemma bad_sector_data_witness :
  let sectors := mkResponse 200 "" (Some (JDict [("data", JNull)])) in
  let w := world_at (mkCache (JStr "T") (Some one_pm)) noon
             (crm_answering sectors sectors) in
  fst (get_medical_expert_from_zoho "r" "c" "s" "secret" (fun _ => "")
         sample_request w)
  = Ok (JsonifyError "Zoho API error: " TypeError, 500).
Proof.
  intros sectors w.
  set (r1 := mkRequest GET
               "https://www.zohoapis.com/crm/v2/Medical_Experts/search"
               (ZohoOauthtoken (JStr "T"))
               [("criteria", "(APHRA_Number:equals:MED0001)");
                ("fields", medical_expert_fields)]).
  set (r2 := mkRequest GET
               "https://www.zohoapis.com/crm/v2/Sectors_and_Schemes/search"
               (ZohoOauthtoken (JStr "T"))
               [("criteria", "(Medical_Expert:equals:4876)")]).
  assert (Haphra : present (aphra_number sample_request) "MED0001")
    by (split; [reflexivity | discriminate]).
  destruct (bad_sector_data "r" "c" "s" "secret" (fun _ => "")
              sample_request "MED0001" w (record r1 (tick w))
              (record r2 (tick (record r1 (tick w))))
              [("data", JList [JDict sample_record])] sample_record []
              (JDict [("data", JNull)])
              eq_refl Haphra eq_refl eq_refl eq_refl) as (_ & H & _).
  rewrite (H [("data", JNull)] JNull eq_refl eq_refl (or_introl eq_refl)).
  reflexivity.
Defined.

Lemma bad_module_data_witness :
  let modules :=
    mkResponse 200 ""
      (Some (JDict [("modules",
                     JList [JDict [("api_name", JStr "Leads")];
                            JStr "Contacts"])])) in
  let w := world_at (mkCache (JStr "T") (Some one_pm)) noon
             (crm_answering modules modules) in
  fst (list_zoho_modules "r" "c" "s" "secret" sample_request w)
  = Ok (JsonifyError "Error: " AttributeError, 500).
Proof.
  intros modules w.
  destruct (bad_module_data "r" "c" "s" "secret" sample_request w (tick w)
              (JStr "T")
              (JDict [("modules",
                       JList [JDict [("api_name", JStr "Leads")];
                              JStr "Contacts"])])
              eq_refl eq_refl eq_refl eq_refl) as (_ & _ & H).
  rewrite (H [("modules",
               JList [JDict [("api_name", JStr "Leads")]; JStr "Contacts"])]
             [[("api_name", JStr "Leads")]] (JStr "Contacts") []
             eq_refl eq_refl); [reflexivity | discriminate].
Defined.
